(** * Codexa front end: the API client and the view-state controller

    A shallow embedding of [frontend/src/api.js] and of the [App] component
    (the state cells of its [useState] hooks, the mount effect that fetches the
    Judge0 languages, the four button handlers and the [PrimaryButton] /
    [select] gates in front of them), followed by the properties of the
    request-state contract.  The component is the current [App.jsx], the one
    that imports [./api] and has the Code Lab panel; the earlier revision kept
    next to it in the sources (no language fetch, no [handleRun]) is not
    modelled. *)

From Stdlib Require Import String Ascii List Bool NArith ZArith Lia.
Import ListNotations.

Local Open Scope string_scope.
Local Open Scope list_scope.

Set Warnings "-register-all".

(* ===================================================================== *)
(** * JavaScript values *)
(* ===================================================================== *)

Module Js.

(** A JavaScript string is a sequence of UTF-16 code units. *)
Definition jsstring : Type := list N.

(** The code units of an ASCII literal of the source text. *)
Fixpoint js (s : string) : jsstring :=
  match s with
  | EmptyString => []
  | String a rest => N_of_ascii a :: js rest
  end.

Definition jsstring_eqb (a b : jsstring) : bool :=
  if list_eq_dec N.eq_dec a b then true else false.

(** [WhiteSpace] and [LineTerminator] of ECMA-262, the code units that
    [String.prototype.trim] strips: TAB, LF, VT, FF, CR, SPACE, NBSP,
    U+1680, U+2000..U+200A, U+2028, U+2029, U+202F, U+205F, U+3000, U+FEFF. *)
Definition is_whitespace (c : N) : bool :=
  ((9 <=? c) && (c <=? 13) || (c =? 32) || (c =? 160) || (c =? 5760)
   || (8192 <=? c) && (c <=? 8202)
   || (c =? 8232) || (c =? 8233) || (c =? 8239) || (c =? 8287)
   || (c =? 12288) || (c =? 65279))%N.

Fixpoint trimStart (s : jsstring) : jsstring :=
  match s with
  | [] => []
  | c :: rest => if is_whitespace c then trimStart rest else s
  end.

Definition trimEnd (s : jsstring) : jsstring := rev (trimStart (rev s)).

(** [s.trim()] *)
Definition trim (s : jsstring) : jsstring := trimEnd (trimStart s).

(** The values that travel through the component: JSON bodies, error objects
    and the contents of the result cells.  Numbers are the integers (the
    handlers never compute with a number); an object is the list of its own
    properties, the first binding of a name being the one that is read. *)
Inductive JsVal : Type :=
| JUndefined
| JNull
| JBool (b : bool)
| JNum (n : Z)
| JStr (s : jsstring)
| JArr (items : list JsVal)
| JObj (props : list (string * JsVal)).

(** [ToBoolean] *)
Definition truthy (v : JsVal) : bool :=
  match v with
  | JUndefined | JNull => false
  | JBool b => b
  | JNum n => negb (n =? 0)%Z
  | JStr s => match s with [] => false | _ :: _ => true end
  | JArr _ | JObj _ => true
  end.

(** [a || b] *)
Definition jor (a b : JsVal) : JsVal := if truthy a then a else b.

Definition nullish (v : JsVal) : bool :=
  match v with
  | JUndefined | JNull => true
  | _ => false
  end.

Fixpoint own (props : list (string * JsVal)) (p : string) : JsVal :=
  match props with
  | [] => JUndefined
  | (q, v) :: rest => if String.eqb q p then v else own rest p
  end.

(** How a statement or an expression completes. *)
Inductive Completion (A : Type) : Type :=
| Normal (a : A)
| Throw (e : JsVal).
Arguments Normal {A} a.
Arguments Throw {A} e.

(** The [TypeError] raised by a property read on [null] or [undefined].  Its
    message is engine specific and is left out: the handlers that can raise it
    only pass it to [console.error]. *)
Definition TypeError : JsVal := JObj [("name", JStr (js "TypeError"))].

(** [v.p] for the property names the handlers read ([data], [curriculum],
    [feedback], [error], [message], [response], [languages]): none of them is
    defined on the String, Number, Boolean or Array prototypes, so a primitive
    or an array yields [undefined]. *)
Definition prop (v : JsVal) (p : string) : Completion JsVal :=
  match v with
  | JUndefined | JNull => Throw TypeError
  | JObj props => Normal (own props p)
  | _ => Normal JUndefined
  end.

(** [v?.p] *)
Definition optprop (v : JsVal) (p : string) : JsVal :=
  match v with
  | JObj props => own props p
  | _ => JUndefined
  end.

End Js.

(* ===================================================================== *)
(** * The API client, [frontend/src/api.js] *)
(* ===================================================================== *)

Module Api.
Import Js.

Inductive Method : Type := GET | POST.

(** The configuration of an axios instance. *)
Record Client : Type := { baseURL : jsstring }.

(** The request an axios call sends. *)
Record Request : Type := {
  method : Method;
  base : jsstring;
  url : jsstring;
  body : option JsVal
}.

(** What an axios promise resolves with; the handlers read only [data]. *)
Record Response (D : Type) : Type := { data : D }.
Arguments data {D} _.

(** [axios.create({ baseURL })] *)
Definition create (b : jsstring) : Client := {| baseURL := b |}.

Definition post (c : Client) (u : jsstring) (payload : JsVal) : Request :=
  {| method := POST; base := baseURL c; url := u; body := Some payload |}.

Definition get (c : Client) (u : jsstring) : Request :=
  {| method := GET; base := baseURL c; url := u; body := None |}.

Definition API : Client := create (js "http://127.0.0.1:8000/api/").

Definition generateCurriculum (topic : JsVal) : Request :=
  post API (js "curriculum/") (JObj [("topic", topic)]).

Definition generateLesson (concept : JsVal) : Request :=
  post API (js "lesson/") (JObj [("concept", concept)]).

Definition getFeedback (code : JsVal) : Request :=
  post API (js "feedback/") (JObj [("code", code)]).

Definition listLanguages : Request := get API (js "execute/").

Definition runCode (payload : JsVal) : Request :=
  post API (js "execute/") payload.

End Api.

(* ===================================================================== *)
(** * The view-state controller, the [App] component *)
(* ===================================================================== *)

Module Controller.
Import Js Api.

(** An entry of the list the backend returns for [GET execute/]. *)
Record Language : Type := {
  key : jsstring;
  name : jsstring;
  editor : jsstring
}.

(** The body of the languages response as [fetchLanguages] reads it:
    [languages] is [None] when the field is missing or falsy.  The component
    calls [some], [find], [map] and [length] on the field, so a truthy value is
    an array of descriptors. *)
Record LanguagesBody : Type := { body_languages : option (list Language) }.

(** The cells of the [useState] hooks of [App], under the names of the source,
    and the variable [cancelled] of the mount effect's closure. *)
Record AppState : Type := {
  topic : jsstring;
  curriculum : JsVal;
  topicLoading : bool;
  concept : jsstring;
  lesson : JsVal;
  lessonLoading : bool;
  code : jsstring;
  stdin : jsstring;
  feedback : JsVal;
  feedbackLoading : bool;
  languages : list Language;
  languagesLoading : bool;
  languageError : JsVal;
  selectedLanguage : jsstring;
  executionLoading : bool;
  executionResult : JsVal;
  cancelled : bool
}.

(** The initial values given to [useState], and [let cancelled = false]. *)
Definition initial : AppState := {|
  topic := js ""; curriculum := JNull; topicLoading := false;
  concept := js ""; lesson := JNull; lessonLoading := false;
  code := js ""; stdin := js ""; feedback := JNull; feedbackLoading := false;
  languages := []; languagesLoading := false; languageError := JNull;
  selectedLanguage := js "python";
  executionLoading := false; executionResult := JNull;
  cancelled := false
|}.

Inductive Cell : Type :=
| CTopic | CCurriculum | CTopicLoading
| CConcept | CLesson | CLessonLoading
| CCode | CStdin | CFeedback | CFeedbackLoading
| CLanguages | CLanguagesLoading | CLanguageError | CSelectedLanguage
| CExecutionLoading | CExecutionResult.

(** What a handler does besides returning: calls of a state setter, calls of
    the API client and [console.error]. *)
Inductive Effect : Type :=
| Write (c : Cell)
| Call (r : Request)
| ConsoleError (v : JsVal).

Definition put_topic v (s : AppState) : AppState :=
  {| topic := v; curriculum := curriculum s; topicLoading := topicLoading s;
     concept := concept s; lesson := lesson s; lessonLoading := lessonLoading s;
     code := code s; stdin := stdin s; feedback := feedback s;
     feedbackLoading := feedbackLoading s; languages := languages s;
     languagesLoading := languagesLoading s; languageError := languageError s;
     selectedLanguage := selectedLanguage s;
     executionLoading := executionLoading s;
     executionResult := executionResult s; cancelled := cancelled s |}.

Definition put_curriculum v (s : AppState) : AppState :=
  {| topic := topic s; curriculum := v; topicLoading := topicLoading s;
     concept := concept s; lesson := lesson s; lessonLoading := lessonLoading s;
     code := code s; stdin := stdin s; feedback := feedback s;
     feedbackLoading := feedbackLoading s; languages := languages s;
     languagesLoading := languagesLoading s; languageError := languageError s;
     selectedLanguage := selectedLanguage s;
     executionLoading := executionLoading s;
     executionResult := executionResult s; cancelled := cancelled s |}.

Definition put_topicLoading v (s : AppState) : AppState :=
  {| topic := topic s; curriculum := curriculum s; topicLoading := v;
     concept := concept s; lesson := lesson s; lessonLoading := lessonLoading s;
     code := code s; stdin := stdin s; feedback := feedback s;
     feedbackLoading := feedbackLoading s; languages := languages s;
     languagesLoading := languagesLoading s; languageError := languageError s;
     selectedLanguage := selectedLanguage s;
     executionLoading := executionLoading s;
     executionResult := executionResult s; cancelled := cancelled s |}.

Definition put_concept v (s : AppState) : AppState :=
  {| topic := topic s; curriculum := curriculum s; topicLoading := topicLoading s;
     concept := v; lesson := lesson s; lessonLoading := lessonLoading s;
     code := code s; stdin := stdin s; feedback := feedback s;
     feedbackLoading := feedbackLoading s; languages := languages s;
     languagesLoading := languagesLoading s; languageError := languageError s;
     selectedLanguage := selectedLanguage s;
     executionLoading := executionLoading s;
     executionResult := executionResult s; cancelled := cancelled s |}.

Definition put_lesson v (s : AppState) : AppState :=
  {| topic := topic s; curriculum := curriculum s; topicLoading := topicLoading s;
     concept := concept s; lesson := v; lessonLoading := lessonLoading s;
     code := code s; stdin := stdin s; feedback := feedback s;
     feedbackLoading := feedbackLoading s; languages := languages s;
     languagesLoading := languagesLoading s; languageError := languageError s;
     selectedLanguage := selectedLanguage s;
     executionLoading := executionLoading s;
     executionResult := executionResult s; cancelled := cancelled s |}.

Definition put_lessonLoading v (s : AppState) : AppState :=
  {| topic := topic s; curriculum := curriculum s; topicLoading := topicLoading s;
     concept := concept s; lesson := lesson s; lessonLoading := v;
     code := code s; stdin := stdin s; feedback := feedback s;
     feedbackLoading := feedbackLoading s; languages := languages s;
     languagesLoading := languagesLoading s; languageError := languageError s;
     selectedLanguage := selectedLanguage s;
     executionLoading := executionLoading s;
     executionResult := executionResult s; cancelled := cancelled s |}.

Definition put_code v (s : AppState) : AppState :=
  {| topic := topic s; curriculum := curriculum s; topicLoading := topicLoading s;
     concept := concept s; lesson := lesson s; lessonLoading := lessonLoading s;
     code := v; stdin := stdin s; feedback := feedback s;
     feedbackLoading := feedbackLoading s; languages := languages s;
     languagesLoading := languagesLoading s; languageError := languageError s;
     selectedLanguage := selectedLanguage s;
     executionLoading := executionLoading s;
     executionResult := executionResult s; cancelled := cancelled s |}.

Definition put_stdin v (s : AppState) : AppState :=
  {| topic := topic s; curriculum := curriculum s; topicLoading := topicLoading s;
     concept := concept s; lesson := lesson s; lessonLoading := lessonLoading s;
     code := code s; stdin := v; feedback := feedback s;
     feedbackLoading := feedbackLoading s; languages := languages s;
     languagesLoading := languagesLoading s; languageError := languageError s;
     selectedLanguage := selectedLanguage s;
     executionLoading := executionLoading s;
     executionResult := executionResult s; cancelled := cancelled s |}.

Definition put_feedback v (s : AppState) : AppState :=
  {| topic := topic s; curriculum := curriculum s; topicLoading := topicLoading s;
     concept := concept s; lesson := lesson s; lessonLoading := lessonLoading s;
     code := code s; stdin := stdin s; feedback := v;
     feedbackLoading := feedbackLoading s; languages := languages s;
     languagesLoading := languagesLoading s; languageError := languageError s;
     selectedLanguage := selectedLanguage s;
     executionLoading := executionLoading s;
     executionResult := executionResult s; cancelled := cancelled s |}.

Definition put_feedbackLoading v (s : AppState) : AppState :=
  {| topic := topic s; curriculum := curriculum s; topicLoading := topicLoading s;
     concept := concept s; lesson := lesson s; lessonLoading := lessonLoading s;
     code := code s; stdin := stdin s; feedback := feedback s;
     feedbackLoading := v; languages := languages s;
     languagesLoading := languagesLoading s; languageError := languageError s;
     selectedLanguage := selectedLanguage s;
     executionLoading := executionLoading s;
     executionResult := executionResult s; cancelled := cancelled s |}.

Definition put_languages v (s : AppState) : AppState :=
  {| topic := topic s; curriculum := curriculum s; topicLoading := topicLoading s;
     concept := concept s; lesson := lesson s; lessonLoading := lessonLoading s;
     code := code s; stdin := stdin s; feedback := feedback s;
     feedbackLoading := feedbackLoading s; languages := v;
     languagesLoading := languagesLoading s; languageError := languageError s;
     selectedLanguage := selectedLanguage s;
     executionLoading := executionLoading s;
     executionResult := executionResult s; cancelled := cancelled s |}.

Definition put_languagesLoading v (s : AppState) : AppState :=
  {| topic := topic s; curriculum := curriculum s; topicLoading := topicLoading s;
     concept := concept s; lesson := lesson s; lessonLoading := lessonLoading s;
     code := code s; stdin := stdin s; feedback := feedback s;
     feedbackLoading := feedbackLoading s; languages := languages s;
     languagesLoading := v; languageError := languageError s;
     selectedLanguage := selectedLanguage s;
     executionLoading := executionLoading s;
     executionResult := executionResult s; cancelled := cancelled s |}.

Definition put_languageError v (s : AppState) : AppState :=
  {| topic := topic s; curriculum := curriculum s; topicLoading := topicLoading s;
     concept := concept s; lesson := lesson s; lessonLoading := lessonLoading s;
     code := code s; stdin := stdin s; feedback := feedback s;
     feedbackLoading := feedbackLoading s; languages := languages s;
     languagesLoading := languagesLoading s; languageError := v;
     selectedLanguage := selectedLanguage s;
     executionLoading := executionLoading s;
     executionResult := executionResult s; cancelled := cancelled s |}.

Definition put_selectedLanguage v (s : AppState) : AppState :=
  {| topic := topic s; curriculum := curriculum s; topicLoading := topicLoading s;
     concept := concept s; lesson := lesson s; lessonLoading := lessonLoading s;
     code := code s; stdin := stdin s; feedback := feedback s;
     feedbackLoading := feedbackLoading s; languages := languages s;
     languagesLoading := languagesLoading s; languageError := languageError s;
     selectedLanguage := v;
     executionLoading := executionLoading s;
     executionResult := executionResult s; cancelled := cancelled s |}.

Definition put_executionLoading v (s : AppState) : AppState :=
  {| topic := topic s; curriculum := curriculum s; topicLoading := topicLoading s;
     concept := concept s; lesson := lesson s; lessonLoading := lessonLoading s;
     code := code s; stdin := stdin s; feedback := feedback s;
     feedbackLoading := feedbackLoading s; languages := languages s;
     languagesLoading := languagesLoading s; languageError := languageError s;
     selectedLanguage := selectedLanguage s;
     executionLoading := v;
     executionResult := executionResult s; cancelled := cancelled s |}.

Definition put_executionResult v (s : AppState) : AppState :=
  {| topic := topic s; curriculum := curriculum s; topicLoading := topicLoading s;
     concept := concept s; lesson := lesson s; lessonLoading := lessonLoading s;
     code := code s; stdin := stdin s; feedback := feedback s;
     feedbackLoading := feedbackLoading s; languages := languages s;
     languagesLoading := languagesLoading s; languageError := languageError s;
     selectedLanguage := selectedLanguage s;
     executionLoading := executionLoading s;
     executionResult := v; cancelled := cancelled s |}.

Definition put_cancelled v (s : AppState) : AppState :=
  {| topic := topic s; curriculum := curriculum s; topicLoading := topicLoading s;
     concept := concept s; lesson := lesson s; lessonLoading := lessonLoading s;
     code := code s; stdin := stdin s; feedback := feedback s;
     feedbackLoading := feedbackLoading s; languages := languages s;
     languagesLoading := languagesLoading s; languageError := languageError s;
     selectedLanguage := selectedLanguage s;
     executionLoading := executionLoading s;
     executionResult := executionResult s; cancelled := v |}.

(** ** Handlers as state transformers

    A piece of handler code run to its end: how it completes, the state it
    leaves and what it did on the way.  A handler closes over the cells of the
    render it was created in and reads them through [read]. *)
Definition M (A : Type) : Type :=
  AppState -> Completion A * AppState * list Effect.

Definition ret {A : Type} (a : A) : M A := fun s => (Normal a, s, []).

Definition throw {A : Type} (e : JsVal) : M A := fun s => (Throw e, s, []).

Definition bind {A B : Type} (m : M A) (k : A -> M B) : M B :=
  fun s =>
    match m s with
    | (Normal a, s1, t1) =>
        match k a s1 with
        | (c, s2, t2) => (c, s2, t1 ++ t2)
        end
    | (Throw e, s1, t1) => (Throw e, s1, t1)
    end.

Notation "x <- m ;; k" := (bind m (fun x => k))
  (at level 61, m at next level, right associativity).
Notation "m ;; k" := (bind m (fun _ => k))
  (at level 61, right associativity).

Definition lift {A : Type} (c : Completion A) : M A := fun s => (c, s, []).

Definition read : M AppState := fun s => (Normal s, s, []).

Definition emit (e : Effect) : M unit := fun s => (Normal tt, s, [e]).

(** [try { body } catch (err) { handler }] *)
Definition try_catch {A : Type} (body : M A) (handler : JsVal -> M A) : M A :=
  fun s =>
    match body s with
    | (Normal a, s1, t1) => (Normal a, s1, t1)
    | (Throw e, s1, t1) =>
        match handler e s1 with
        | (c, s2, t2) => (c, s2, t1 ++ t2)
        end
    end.

(** [... finally { fin }]: [fin] runs however the body completed, and the
    body's completion stands unless [fin] throws. *)
Definition finally {A : Type} (body : M A) (fin : M unit) : M A :=
  fun s =>
    match body s with
    | (c, s1, t1) =>
        match fin s1 with
        | (Normal _, s2, t2) => (c, s2, t1 ++ t2)
        | (Throw e, s2, t2) => (Throw e, s2, t1 ++ t2)
        end
    end.

(** A call of the setter of cell [c]. *)
Definition setter (c : Cell) (f : AppState -> AppState) : M unit :=
  fun s => (Normal tt, f s, [Write c]).

Definition setTopic v := setter CTopic (put_topic v).
Definition setCurriculum v := setter CCurriculum (put_curriculum v).
Definition setTopicLoading v := setter CTopicLoading (put_topicLoading v).
Definition setConcept v := setter CConcept (put_concept v).
Definition setLesson v := setter CLesson (put_lesson v).
Definition setLessonLoading v := setter CLessonLoading (put_lessonLoading v).
Definition setCode v := setter CCode (put_code v).
Definition setStdin v := setter CStdin (put_stdin v).
Definition setFeedback v := setter CFeedback (put_feedback v).
Definition setFeedbackLoading v :=
  setter CFeedbackLoading (put_feedbackLoading v).
Definition setLanguages v := setter CLanguages (put_languages v).
Definition setLanguagesLoading v :=
  setter CLanguagesLoading (put_languagesLoading v).
Definition setLanguageError v := setter CLanguageError (put_languageError v).
Definition setSelectedLanguage v :=
  setter CSelectedLanguage (put_selectedLanguage v).
Definition setExecutionLoading v :=
  setter CExecutionLoading (put_executionLoading v).
Definition setExecutionResult v :=
  setter CExecutionResult (put_executionResult v).

(** [setSelectedLanguage((current) => ...)]: the updater form, applied to the
    cell as it is when the update is processed. *)
Definition setSelectedLanguageWith (f : jsstring -> jsstring) : M unit :=
  setter CSelectedLanguage (fun s => put_selectedLanguage (f (selectedLanguage s)) s).

Definition console_error (v : JsVal) : M unit := emit (ConsoleError v).

(** A call of an API client function: the request goes out. *)
Definition call (r : Request) : M unit := emit (Call r).

(** How the promise of an API call settles. *)
Inductive Settlement (D : Type) : Type :=
| Resolved (res : Response D)
| Rejected (err : JsVal).
Arguments Resolved {D} res.
Arguments Rejected {D} err.

(** [await p] once [p] has settled. *)
Definition await {D : Type} (s : Settlement D) : M (Response D) :=
  match s with
  | Resolved res => ret res
  | Rejected err => throw err
  end.

(** [!input.trim()] *)
Definition blank (input : jsstring) : bool := negb (truthy (JStr (trim input))).

(** ** The mount effect: [fetchLanguages] *)

(** [a || b] where [a] is a string or, for [None], [undefined]. *)
Definition or_str (a : option jsstring) (b : jsstring) : jsstring :=
  match a with
  | Some ((_ :: _) as k) => k
  | _ => b
  end.

(** [langs[0]?.key] *)
Definition first_key (langs : list Language) : option jsstring :=
  match langs with
  | [] => None
  | lang :: _ => Some (key lang)
  end.

(** [langs.some((lang) => lang.key === current)] *)
Definition has_key (langs : list Language) (current : jsstring) : bool :=
  existsb (fun lang => jsstring_eqb (key lang) current) langs.

(** The updater passed to [setSelectedLanguage], lines 122-127. *)
Definition selectLanguage (langs : list Language) (current : jsstring)
  : jsstring :=
  if truthy (JStr current) && has_key langs current then current
  else or_str (Some (or_str (first_key langs) current)) (js "python").

(** [res.data?.languages || []] *)
Definition languages_of (res : Response (option LanguagesBody))
  : list Language :=
  match data res with
  | Some b =>
      match body_languages b with
      | Some langs => langs
      | None => []
      end
  | None => []
  end.

Definition languages_unavailable : jsstring :=
  js "Unable to load Judge0 languages. Check your backend connection.".

(** [fetchLanguages] up to its [await]. *)
Definition fetchLanguages_begin : M unit :=
  setLanguagesLoading true ;;
  call listLanguages.

(** [fetchLanguages] from the [await] on.  The [return] statements of the
    [try] and [catch] blocks leave the block for the [finally] clause; they
    are the [then] branches below. *)
Definition fetchLanguages_resume (p : Settlement (option LanguagesBody))
  : M unit :=
  finally
    (try_catch
       (res <- await p ;;
        st <- read ;;
        if cancelled st then ret tt
        else
          let langs := languages_of res in
          setLanguages langs ;;
          setSelectedLanguageWith (selectLanguage langs) ;;
          setLanguageError JNull)
       (fun err =>
          st <- read ;;
          if cancelled st then ret tt
          else
            console_error err ;;
            setLanguageError (JStr languages_unavailable)))
    (st <- read ;;
     if negb (cancelled st) then setLanguagesLoading false else ret tt).

(** The cleanup the effect returns. *)
Definition cleanup : M unit := fun s => (Normal tt, put_cancelled true s, []).

(** [languages.find((lang) => lang.key === selectedLanguage)] *)
Definition activeLanguage (s : AppState) : option Language :=
  find (fun lang => jsstring_eqb (key lang) (selectedLanguage s)) (languages s).

(** ** The button handlers *)

Definition failed_to_fetch : JsVal :=
  JObj [("error", JStr (js "failed to fetch"))].

Definition handleGenerate_begin : M unit :=
  st <- read ;;
  if blank (topic st) then ret tt
  else
    setTopicLoading true ;;
    call (generateCurriculum (JStr (topic st))).

Definition handleGenerate_resume (p : Settlement JsVal) : M unit :=
  finally
    (try_catch
       (res <- await p ;;
        c <- lift (prop (data res) "curriculum") ;;
        setCurriculum (jor c (data res)))
       (fun err =>
          console_error err ;;
          setCurriculum failed_to_fetch))
    (setTopicLoading false).

Definition handleExplain_begin : M unit :=
  st <- read ;;
  if blank (concept st) then ret tt
  else
    setLessonLoading true ;;
    call (generateLesson (JStr (concept st))).

Definition handleExplain_resume (p : Settlement JsVal) : M unit :=
  finally
    (try_catch
       (res <- await p ;;
        setLesson (data res))
       (fun err =>
          console_error err ;;
          setLesson failed_to_fetch))
    (setLessonLoading false).

Definition handleFeedback_begin : M unit :=
  st <- read ;;
  if blank (code st) then ret tt
  else
    setFeedbackLoading true ;;
    call (getFeedback (JStr (code st))).

Definition handleFeedback_resume (p : Settlement JsVal) : M unit :=
  finally
    (try_catch
       (res <- await p ;;
        f <- lift (prop (data res) "feedback") ;;
        setFeedback (jor f (data res)))
       (fun err =>
          console_error err ;;
          setFeedback failed_to_fetch))
    (setFeedbackLoading false).

Definition execution_failed : JsVal :=
  JStr (js "Execution failed. Please try again.").

(** [err?.response?.data?.error || err?.message || "Execution failed. ..."] *)
Definition fallback (err : JsVal) : JsVal :=
  jor (jor (optprop (optprop (optprop err "response") "data") "error")
           (optprop err "message"))
      execution_failed.

(** The payload [handleRun] passes to [runJudge0]. *)
Definition run_payload (st : AppState) : JsVal :=
  JObj [("language", JStr (selectedLanguage st));
        ("source_code", JStr (code st));
        ("stdin", JStr (stdin st))].

Definition handleRun_begin : M unit :=
  st <- read ;;
  if blank (code st) then ret tt
  else
    setExecutionLoading true ;;
    setExecutionResult JNull ;;
    call (runCode (run_payload st)).

Definition handleRun_resume (p : Settlement JsVal) : M unit :=
  finally
    (try_catch
       (res <- await p ;;
        setExecutionResult (data res))
       (fun err =>
          console_error err ;;
          setExecutionResult (JObj [("error", fallback err)])))
    (setExecutionLoading false).

(** ** What [App] renders: the buttons, the inputs and the select *)

Inductive Button : Type := Generate | Explain | RunJudge0 | GetFeedback.

(** [PrimaryButton]: a click reaches [onClick] unless the button is disabled. *)
Definition PrimaryButton (onClick : M unit) (loading disabled : bool)
  : M unit :=
  let isDisabled := disabled || loading in
  if isDisabled then ret tt else onClick.

(** The props [App] gives to each [PrimaryButton]. *)
Definition onClick (b : Button) : M unit :=
  match b with
  | Generate => handleGenerate_begin
  | Explain => handleExplain_begin
  | RunJudge0 => handleRun_begin
  | GetFeedback => handleFeedback_begin
  end.

Definition loading_prop (b : Button) (s : AppState) : bool :=
  match b with
  | Generate => topicLoading s
  | Explain => lessonLoading s
  | RunJudge0 => executionLoading s
  | GetFeedback => feedbackLoading s
  end.

(** The text a button's handler checks and sends. *)
Definition input (b : Button) (s : AppState) : jsstring :=
  match b with
  | Generate => topic s
  | Explain => concept s
  | RunJudge0 | GetFeedback => code s
  end.

Definition disabled_prop (b : Button) (s : AppState) : bool :=
  blank (input b s).

Definition click (b : Button) : M unit :=
  st <- read ;;
  PrimaryButton (onClick b) (loading_prop b st) (disabled_prop b st).

(** The language [select]: disabled while the languages load or when there is
    none; its options are the keys of [languages], and [onChange] stores the
    chosen one. *)
Definition select_disabled (s : AppState) : bool :=
  languagesLoading s || (length (languages s) =? 0)%nat.

Definition select_onChange (v : jsstring) : M unit :=
  st <- read ;;
  if select_disabled st then ret tt
  else if has_key (languages st) v then setSelectedLanguage v
  else ret tt.

(** The editor's [onChange={(value) => setCode(value ?? "")}]. *)
Definition editor_onChange (value : option jsstring) : M unit :=
  setCode (match value with Some v => v | None => js "" end).

(** The continuation of a button's handler after its [await]. *)
Definition resume (b : Button) (p : Settlement JsVal) : M unit :=
  match b with
  | Generate => handleGenerate_resume p
  | Explain => handleExplain_resume p
  | RunJudge0 => handleRun_resume p
  | GetFeedback => handleFeedback_resume p
  end.

(** ** The component as a transition system *)

Inductive Event : Type :=
| InputTopic (v : jsstring)
| InputConcept (v : jsstring)
| EditorChange (value : option jsstring)
| InputStdin (v : jsstring)
| SelectLanguage (v : jsstring)
| Click (b : Button)
| LanguagesSettled (p : Settlement (option LanguagesBody))
| Settled (b : Button) (p : Settlement JsVal)
| Unmount.

Definition dispatch (ev : Event) : M unit :=
  match ev with
  | InputTopic v => setTopic v
  | InputConcept v => setConcept v
  | EditorChange value => editor_onChange value
  | InputStdin v => setStdin v
  | SelectLanguage v => select_onChange v
  | Click b => click b
  | LanguagesSettled p => fetchLanguages_resume p
  | Settled b p => resume b p
  | Unmount => cleanup
  end.

Definition completion_of {A : Type} (r : Completion A * AppState * list Effect)
  : Completion A := fst (fst r).
Definition state_of {A : Type} (r : Completion A * AppState * list Effect)
  : AppState := snd (fst r).
Definition trace_of {A : Type} (r : Completion A * AppState * list Effect)
  : list Effect := snd r.

(** The state after an event, and after a sequence of events.  An event is
    handled against the state the previous one left: React commits the
    updates of an event handler, and of a settled promise's continuation,
    before it delivers the next event. *)
Definition step (s : AppState) (ev : Event) : AppState :=
  state_of (dispatch ev s).

Definition steps (s : AppState) (evs : list Event) : AppState :=
  fold_left step evs s.

(** The requests a trace sent, and the cells it wrote, in order. *)
Fixpoint calls (t : list Effect) : list Request :=
  match t with
  | [] => []
  | Call r :: rest => r :: calls rest
  | _ :: rest => calls rest
  end.

Fixpoint writes (t : list Effect) : list Cell :=
  match t with
  | [] => []
  | Write c :: rest => c :: writes rest
  | _ :: rest => writes rest
  end.

(** ** Runs of a mounted component

    The async functions of the component that are suspended at their [await],
    next to the state: [fetchLanguages], started by the mount effect, and the
    handler of a button, started by a click that got through. *)
Inductive Handler : Type :=
| FetchLanguages
| OnClick (b : Button).

Definition Button_eq_dec (a b : Button) : {a = b} + {a <> b}.
Proof. decide equality. Defined.

Definition Handler_eq_dec (a b : Handler) : {a = b} + {a <> b}.
Proof. decide equality. apply Button_eq_dec. Defined.

Record World : Type := {
  view : AppState;
  awaiting : list Handler
}.

Fixpoint remove1 (h : Handler) (l : list Handler) : list Handler :=
  match l with
  | [] => []
  | x :: rest => if Handler_eq_dec h x then rest else x :: remove1 h rest
  end.

Definition is_awaiting (h : Handler) (w : World) : bool :=
  if in_dec Handler_eq_dec h (awaiting w) then true else false.

(** The first render and the run of the effect ([useEffect] with an empty
    dependency list: once, on mount). *)
Definition mount : World :=
  {| view := state_of (fetchLanguages_begin initial);
     awaiting := [FetchLanguages] |}.

(** One event of a run.  A settlement is the settlement of a call in flight;
    a click whose handler reached its API call leaves that handler awaiting. *)
Definition wstep (w : World) (ev : Event) : option World :=
  match ev with
  | Click b =>
      let r := dispatch ev (view w) in
      Some {| view := state_of r;
              awaiting := match calls (trace_of r) with
                          | [] => awaiting w
                          | _ :: _ => OnClick b :: awaiting w
                          end |}
  | LanguagesSettled _ =>
      if is_awaiting FetchLanguages w
      then Some {| view := step (view w) ev;
                   awaiting := remove1 FetchLanguages (awaiting w) |}
      else None
  | Settled b _ =>
      if is_awaiting (OnClick b) w
      then Some {| view := step (view w) ev;
                   awaiting := remove1 (OnClick b) (awaiting w) |}
      else None
  | _ => Some {| view := step (view w) ev; awaiting := awaiting w |}
  end.

(** A run: each event in turn, as long as each is possible. *)
Fixpoint wsteps (w : World) (evs : list Event) : option World :=
  match evs with
  | [] => Some w
  | ev :: rest =>
      match wstep w ev with
      | Some w1 => wsteps w1 rest
      | None => None
      end
  end.

Inductive reachable : World -> Prop :=
| reach_mount : reachable mount
| reach_step : forall w ev w',
    reachable w -> wstep w ev = Some w' -> reachable w'.

(** The cells of a button's operation. *)
Definition loading_cell (b : Button) : Cell :=
  match b with
  | Generate => CTopicLoading
  | Explain => CLessonLoading
  | RunJudge0 => CExecutionLoading
  | GetFeedback => CFeedbackLoading
  end.

Definition result_cell (b : Button) : Cell :=
  match b with
  | Generate => CCurriculum
  | Explain => CLesson
  | RunJudge0 => CExecutionResult
  | GetFeedback => CFeedback
  end.

Definition result (b : Button) (s : AppState) : JsVal :=
  match b with
  | Generate => curriculum s
  | Explain => lesson s
  | RunJudge0 => executionResult s
  | GetFeedback => feedback s
  end.

(** The request a button's handler sends from state [s]. *)
Definition request (b : Button) (s : AppState) : Request :=
  match b with
  | Generate => generateCurriculum (JStr (topic s))
  | Explain => generateLesson (JStr (concept s))
  | RunJudge0 => runCode (run_payload s)
  | GetFeedback => getFeedback (JStr (code s))
  end.

Definition put_loading (b : Button) (v : bool) (s : AppState) : AppState :=
  match b with
  | Generate => put_topicLoading v s
  | Explain => put_lessonLoading v s
  | RunJudge0 => put_executionLoading v s
  | GetFeedback => put_feedbackLoading v s
  end.

Definition put_result (b : Button) (v : JsVal) (s : AppState) : AppState :=
  match b with
  | Generate => put_curriculum v s
  | Explain => put_lesson v s
  | RunJudge0 => put_executionResult v s
  | GetFeedback => put_feedback v s
  end.

(** ** The five operations *)

(** An operation is named by the async function that performs it. *)
Definition loading (h : Handler) (s : AppState) : bool :=
  match h with
  | FetchLanguages => languagesLoading s
  | OnClick b => loading_prop b s
  end.

(** Method and path of the operation's request, as [api.js] has them. *)
Definition endpoint (h : Handler) : Method * jsstring :=
  match h with
  | FetchLanguages => (GET, js "execute/")
  | OnClick Generate => (POST, js "curriculum/")
  | OnClick Explain => (POST, js "lesson/")
  | OnClick GetFeedback => (POST, js "feedback/")
  | OnClick RunJudge0 => (POST, js "execute/")
  end.

Definition endpoint_of (r : Request) : Method * jsstring := (method r, url r).

(** The cells in which an operation shows a failure: where its error goes,
    and its loading flag. *)
Definition failure_cells (h : Handler) : list Cell :=
  match h with
  | FetchLanguages => [CLanguageError; CLanguagesLoading]
  | OnClick b => [result_cell b; loading_cell b]
  end.

(** The settlement events of an operation. *)
Definition rejection (h : Handler) (err : JsVal) : Event :=
  match h with
  | FetchLanguages => LanguagesSettled (Rejected err)
  | OnClick b => Settled b (Rejected err)
  end.

(** Reading a cell. *)
Definition cell_type (c : Cell) : Type :=
  match c with
  | CTopic | CConcept | CCode | CStdin | CSelectedLanguage => jsstring
  | CCurriculum | CLesson | CFeedback | CLanguageError | CExecutionResult =>
      JsVal
  | CTopicLoading | CLessonLoading | CFeedbackLoading | CLanguagesLoading
  | CExecutionLoading => bool
  | CLanguages => list Language
  end.

Definition peek (c : Cell) : AppState -> cell_type c :=
  match c return AppState -> cell_type c with
  | CTopic => topic
  | CCurriculum => curriculum
  | CTopicLoading => topicLoading
  | CConcept => concept
  | CLesson => lesson
  | CLessonLoading => lessonLoading
  | CCode => code
  | CStdin => stdin
  | CFeedback => feedback
  | CFeedbackLoading => feedbackLoading
  | CLanguages => languages
  | CLanguagesLoading => languagesLoading
  | CLanguageError => languageError
  | CSelectedLanguage => selectedLanguage
  | CExecutionLoading => executionLoading
  | CExecutionResult => executionResult
  end.

Definition Cell_eq_dec (a b : Cell) : {a = b} + {a <> b}.
Proof. decide equality. Defined.


(** How many calls of an operation are in flight. *)
Definition in_flight (h : Handler) (w : World) : nat :=
  count_occ Handler_eq_dec (awaiting w) h.

(** What holds of every run: a button's operation has a call in flight
    exactly while its loading flag is up, and then only one; the languages
    fetch has at most one call in flight, and until it settles the languages
    loading flag is up and the selection is the initial one. *)
Definition consistent (w : World) : Prop :=
  (forall b, in_flight (OnClick b) w = if loading_prop b (view w) then 1 else 0)
  /\ in_flight FetchLanguages w <= 1
  /\ (in_flight FetchLanguages w = 1 ->
      languagesLoading (view w) = true
      /\ selectedLanguage (view w) = js "python").

(** The button whose operation an event belongs to. *)
Definition button_of (ev : Event) : option Button :=
  match ev with
  | Click b | Settled b _ => Some b
  | _ => None
  end.

End Controller.

(* ===================================================================== *)
(** * What [App] shows: the derived values and the result panels *)
(* ===================================================================== *)

Module Render.
Import Js Api Controller.

(** The property names read below ([status], [id], [description], [name],
    [error], [stdout], [stderr], [compile_output], [time], [memory], [token],
    [levels], [curriculum], [level], [lessons], [title], [summary],
    [explanation], [exercise]) are, like those of the handlers, not defined on
    the String, Number, Boolean or Array prototypes.  A panel is given as the
    values the component hands to React. *)

(** Sequencing of expressions that may throw. *)
Definition cbind {A B : Type} (c : Completion A) (k : A -> Completion B)
  : Completion B :=
  match c with
  | Normal a => k a
  | Throw e => Throw e
  end.

(** [items.map(f)] on the elements of an array, in order. *)
Fixpoint map_items {A : Type} (f : JsVal -> Completion A)
    (items : list JsVal) : Completion (list A) :=
  match items with
  | [] => Normal []
  | x :: rest =>
      cbind (f x) (fun y =>
      cbind (map_items f rest) (fun ys => Normal (y :: ys)))
  end.

(** [v.map(f)] for a [v] that is not [null] or [undefined]: anything but an
    array has no callable [map]. *)
Definition array_map {A : Type} (v : JsVal) (f : JsVal -> Completion A)
  : Completion (list A) :=
  match v with
  | JArr items => map_items f items
  | _ => Throw TypeError
  end.

(** The value of [v && <element>]: the element, or the falsy [v] itself. *)
Inductive Slot (A : Type) : Type :=
| Skipped (falsy : JsVal)
| Shown (content : A).
Arguments Skipped {A} falsy.
Arguments Shown {A} content.

(** [v && <div>... {v} ...</div>] *)
Definition slot (v : JsVal) : Slot JsVal :=
  if truthy v then Shown v else Skipped v.

(** ** [editorLanguage], lines 147-148 *)

(** [activeLanguage?.editor || selectedLanguage || "plaintext"] *)
Definition editorLanguage (s : AppState) : jsstring :=
  or_str
    (Some (or_str (option_map editor (activeLanguage s)) (selectedLanguage s)))
    (js "plaintext").

(** ** The status of a run, lines 213-223 *)

(** [executionResult?.status] *)
Definition statusInfo (s : AppState) : JsVal :=
  optprop (executionResult s) "status".

Definition statusLabel (s : AppState) : JsVal :=
  match statusInfo s with
  | JStr label => JStr label
  | info =>
      jor (jor (optprop info "description") (optprop info "name"))
          (JStr (js ""))
  end.

(** [v === n] for a number literal [n]. *)
Definition strict_eq_number (v : JsVal) (n : Z) : bool :=
  match v with
  | JNum m => (m =? n)%Z
  | _ => false
  end.

Section Relational.

(** [v < n] when [v] is a string, an array or an object: the comparison goes
    through [ToPrimitive] and [StringToNumber], which are left open. *)
Variable coerced_lt : JsVal -> Z -> bool.

(** [v < n] for a number literal [n]. *)
Definition less_than (v : JsVal) (n : Z) : bool :=
  match v with
  | JNum m => (m <? n)%Z
  | JBool b => ((if b then 1 else 0) <? n)%Z
  | JNull => (0 <? n)%Z
  | JUndefined => false
  | _ => coerced_lt v n
  end.

Definition statusTone (s : AppState) : jsstring :=
  let id := optprop (statusInfo s) "id" in
  if strict_eq_number id 3 then js "text-emerald-600"
  else if truthy id && less_than id 3 then js "text-amber-600"
  else js "text-red-600".

(** ** The panel of a run, lines 385-441 *)

Record StatusPanel : Type := {
  shown_label : JsVal;
  shown_tone : jsstring;
  shown_stdout : Slot JsVal;
  shown_stderr : Slot JsVal;
  shown_compile_output : Slot JsVal;
  shown_time : option JsVal;
  shown_memory : option JsVal;
  shown_token : Slot JsVal
}.

Inductive ExecutionPanel : Type :=
| ErrorPanel (message : JsVal)
| ResultPanel (p : StatusPanel).

(** [v !== undefined && <span>... {v ?? "-"} ...</span>] *)
Definition measure (v : JsVal) : option JsVal :=
  match v with
  | JUndefined => None
  | JNull => Some (JStr (js "-"))
  | _ => Some v
  end.

Definition executionPanel (s : AppState) : Slot ExecutionPanel :=
  let r := executionResult s in
  if truthy r then
    Shown
      (if truthy (optprop r "error") then ErrorPanel (optprop r "error")
       else
         ResultPanel
           {| shown_label := jor (statusLabel s) (JStr (js "Completed"));
              shown_tone := statusTone s;
              shown_stdout := slot (optprop r "stdout");
              shown_stderr := slot (optprop r "stderr");
              shown_compile_output := slot (optprop r "compile_output");
              shown_time := measure (optprop r "time");
              shown_memory := measure (optprop r "memory");
              shown_token := slot (optprop r "token") |})
  else Skipped r.

End Relational.

(** ** [CurriculumCard], lines 60-89 *)

Record LessonItem : Type := {
  item_title : JsVal;
  item_summary : JsVal
}.

Record LevelCard : Type := {
  card_level : JsVal;
  card_lessons : option (list LessonItem)
}.

(** The [li] of a lesson: [lesson.title], then [lesson.summary]. *)
Definition lesson_item (lesson : JsVal) : Completion LessonItem :=
  cbind (prop lesson "title") (fun title =>
  cbind (prop lesson "summary") (fun summary =>
  Normal {| item_title := title; item_summary := summary |})).

(** The card of a level: [lvl.level], then [lvl.lessons?.map(...)]. *)
Definition level_card (lvl : JsVal) : Completion LevelCard :=
  cbind (prop lvl "level") (fun level =>
  cbind (prop lvl "lessons") (fun lessons =>
  if nullish lessons
  then Normal {| card_level := level; card_lessons := None |}
  else
    cbind (array_map lessons lesson_item) (fun items =>
    Normal {| card_level := level; card_lessons := Some items |}))).

(** [curriculum.levels || curriculum?.curriculum?.levels || []] *)
Definition levels_of (curriculum : JsVal) : Completion JsVal :=
  cbind (prop curriculum "levels") (fun levels =>
  Normal
    (jor (jor levels (optprop (optprop curriculum "curriculum") "levels"))
         (JArr []))).

(** The component: [None] is the [null] it returns for a falsy prop. *)
Definition CurriculumCard (curriculum : JsVal)
  : Completion (option (list LevelCard)) :=
  if negb (truthy curriculum) then Normal None
  else
    cbind (levels_of curriculum) (fun levels =>
    cbind (array_map levels level_card) (fun cards =>
    Normal (Some cards))).




(** ** The lesson and feedback panels, lines 294-302 and 443-450 *)

Record LessonPanel : Type := {
  lesson_heading : JsVal;
  lesson_text : JsVal;
  lesson_exercise : Slot JsVal
}.

Section Stringify.

(** [JSON.stringify(v)] and [JSON.stringify(v, null, 2)], left open. *)
Variable stringify : JsVal -> JsVal.
Variable stringify_indented : JsVal -> JsVal.

Definition lessonPanel (s : AppState) : Slot LessonPanel :=
  let l := lesson s in
  if truthy l then
    Shown {| lesson_heading := jor (optprop l "title") (JStr (js "Lesson"));
             lesson_text := jor (optprop l "explanation") (stringify l);
             lesson_exercise := slot (optprop l "exercise") |}
  else Skipped l.

(** [typeof feedback === "string" ? feedback : JSON.stringify(...)] *)
Definition feedbackPanel (s : AppState) : Slot JsVal :=
  let f := feedback s in
  if truthy f then
    Shown match f with
          | JStr text => JStr text
          | other => stringify_indented other
          end
  else Skipped f.

End Stringify.

End Render.

(* ===================================================================== *)
(** * The earlier revision of [App] kept in the sources *)
(* ===================================================================== *)

(** The earlier [App.jsx] calls axios itself and has three operations.  Its
    handlers use the cells [topic], [curriculum], [topicLoading], [concept],
    [lesson], [lessonLoading], [code], [feedback] and [feedbackLoading], which
    the current component has under the same names: they are run on the
    current state record, whose other cells they do not mention.  The editor
    of that revision stores what Monaco hands it, which can be [undefined];
    the feedback handler is given here for a [code] cell that holds a
    string, as the cell is typed. *)
Module Earlier.
Import Js Api Controller.

Inductive Button : Type := Generate | Explain | Submit.

(** [const api = axios.create({ baseURL: ... })] *)
Definition api : Client := create (js "http://127.0.0.1:8000/api/").

(** [<button onClick={onClick} disabled={loading}>] *)
Definition PrimaryButton (onClick : M unit) (loading : bool) : M unit :=
  if loading then ret tt else onClick.

Definition handleGenerate_begin : M unit :=
  st <- read ;;
  if blank (topic st) then ret tt
  else
    setTopicLoading true ;;
    call (post api (js "curriculum/") (JObj [("topic", JStr (topic st))])).

Definition handleGenerate_resume (p : Settlement JsVal) : M unit :=
  finally
    (try_catch
       (res <- await p ;;
        c <- lift (prop (data res) "curriculum") ;;
        setCurriculum (jor c (data res)))
       (fun err =>
          console_error err ;;
          setCurriculum (JObj [("error", JStr (js "failed to fetch"))])))
    (setTopicLoading false).

Definition handleExplain_begin : M unit :=
  st <- read ;;
  if blank (concept st) then ret tt
  else
    setLessonLoading true ;;
    call (post api (js "lesson/") (JObj [("concept", JStr (concept st))])).

Definition handleExplain_resume (p : Settlement JsVal) : M unit :=
  finally
    (try_catch
       (res <- await p ;;
        setLesson (data res))
       (fun err =>
          console_error err ;;
          setLesson (JObj [("error", JStr (js "failed to fetch"))])))
    (setLessonLoading false).

Definition handleFeedback_begin : M unit :=
  st <- read ;;
  if blank (code st) then ret tt
  else
    setFeedbackLoading true ;;
    call (post api (js "feedback/") (JObj [("code", JStr (code st))])).

Definition handleFeedback_resume (p : Settlement JsVal) : M unit :=
  finally
    (try_catch
       (res <- await p ;;
        setFeedback (data res))
       (fun err =>
          console_error err ;;
          setFeedback (JObj [("error", JStr (js "failed to fetch"))])))
    (setFeedbackLoading false).

Definition click (b : Button) : M unit :=
  st <- read ;;
  match b with
  | Generate => PrimaryButton handleGenerate_begin (topicLoading st)
  | Explain => PrimaryButton handleExplain_begin (lessonLoading st)
  | Submit => PrimaryButton handleFeedback_begin (feedbackLoading st)
  end.

Definition resume (b : Button) (p : Settlement JsVal) : M unit :=
  match b with
  | Generate => handleGenerate_resume p
  | Explain => handleExplain_resume p
  | Submit => handleFeedback_resume p
  end.

(** The button of the current component that took over an earlier one. *)
Definition successor (b : Button) : Controller.Button :=
  match b with
  | Generate => Controller.Generate
  | Explain => Controller.Explain
  | Submit => Controller.GetFeedback
  end.

End Earlier.

(* ===================================================================== *)
(** * What React makes of the values it is handed *)
(* ===================================================================== *)

(** The panels of [Render] are the values the component puts between the
    tags of an element.  React turns such a child into text nodes: a string
    or a number is text (the empty string is no node), a boolean, [null] and
    [undefined] are nothing, an array is its items in order, and a plain
    object is refused with the error [Objects are not valid as a React
    child], thrown while the component is rendered.  [App] has no error
    boundary. *)
Module Page.
Import Js Api Controller Render.

Inductive Node : Type :=
| Text (s : jsstring)
| Digits (n : Z).

(** React's error for an object child; like [TypeError], without its
    message. *)
Definition InvalidChild : JsVal := JObj [("name", JStr (js "Error"))].

Fixpoint render_child (v : JsVal) : Completion (list Node) :=
  match v with
  | JUndefined | JNull | JBool _ => Normal []
  | JNum n => Normal [Digits n]
  | JStr [] => Normal []
  | JStr s => Normal [Text s]
  | JArr items =>
      (fix render_all (l : list JsVal) : Completion (list Node) :=
         match l with
         | [] => Normal []
         | x :: rest =>
             cbind (render_child x) (fun a =>
             cbind (render_all rest) (fun b => Normal (a ++ b)))
         end) items
  | JObj _ => Throw InvalidChild
  end.

(** The values React accepts as a child. *)
Fixpoint valid_child (v : JsVal) : bool :=
  match v with
  | JObj _ => false
  | JArr items =>
      (fix all_valid (l : list JsVal) : bool :=
         match l with
         | [] => true
         | x :: rest => valid_child x && all_valid rest
         end) items
  | _ => true
  end.

(** ** The panel of a run on the page *)

(** A section written [v && <element>{v}</element>]: the element with its
    text, or what React makes of the falsy [v]. *)
Inductive Section : Type :=
| Absent (stray : list Node)
| Present (content : list Node).

Definition render_slot (sl : Slot JsVal) : Completion Section :=
  match sl with
  | Skipped falsy => cbind (render_child falsy) (fun n => Normal (Absent n))
  | Shown v => cbind (render_child v) (fun n => Normal (Present n))
  end.

(** [v !== undefined && <span>{v ?? "-"}</span>]: [false] when [v] is
    [undefined]. *)
Definition render_measure (m : option JsVal) : Completion Section :=
  match m with
  | None => Normal (Absent [])
  | Some v => cbind (render_child v) (fun n => Normal (Present n))
  end.

Record ResultBox : Type := {
  box_label : list Node;
  box_tone : jsstring;
  box_stdout : Section;
  box_stderr : Section;
  box_compile_output : Section;
  box_time : Section;
  box_memory : Section;
  box_token : Section
}.

Inductive RunView : Type :=
| NoRunPanel (stray : list Node)
| ErrorBox (message : list Node)
| ResultView (r : ResultBox).

Definition render_executionPanel (coerced_lt : JsVal -> Z -> bool)
    (s : AppState) : Completion RunView :=
  match executionPanel coerced_lt s with
  | Skipped falsy =>
      cbind (render_child falsy) (fun n => Normal (NoRunPanel n))
  | Shown (ErrorPanel message) =>
      cbind (render_child message) (fun n => Normal (ErrorBox n))
  | Shown (ResultPanel p) =>
      cbind (render_child (shown_label p)) (fun label =>
      cbind (render_slot (shown_stdout p)) (fun out =>
      cbind (render_slot (shown_stderr p)) (fun err =>
      cbind (render_slot (shown_compile_output p)) (fun comp =>
      cbind (render_measure (shown_time p)) (fun time =>
      cbind (render_measure (shown_memory p)) (fun mem =>
      cbind (render_slot (shown_token p)) (fun token =>
      Normal
        (ResultView
           {| box_label := label; box_tone := shown_tone p;
              box_stdout := out; box_stderr := err;
              box_compile_output := comp; box_time := time;
              box_memory := mem; box_token := token |}))))))))
  end.

(** ** The curriculum card on the page *)

Record LessonView : Type := {
  title_text : list Node;
  summary_text : list Node
}.

Record LevelView : Type := {
  level_text : list Node;
  lessons_view : option (list LessonView)
}.

Definition render_lesson (item : LessonItem) : Completion LessonView :=
  cbind (render_child (item_title item)) (fun title =>
  cbind (render_child (item_summary item)) (fun summary =>
  Normal {| title_text := title; summary_text := summary |})).

Fixpoint render_lessons (items : list LessonItem)
  : Completion (list LessonView) :=
  match items with
  | [] => Normal []
  | item :: rest =>
      cbind (render_lesson item) (fun v =>
      cbind (render_lessons rest) (fun vs => Normal (v :: vs)))
  end.

Definition render_level (card : LevelCard) : Completion LevelView :=
  cbind (render_child (card_level card)) (fun level =>
  match card_lessons card with
  | None => Normal {| level_text := level; lessons_view := None |}
  | Some items =>
      cbind (render_lessons items) (fun vs =>
      Normal {| level_text := level; lessons_view := Some vs |})
  end).

Fixpoint render_levels (cards : list LevelCard)
  : Completion (list LevelView) :=
  match cards with
  | [] => Normal []
  | card :: rest =>
      cbind (render_level card) (fun v =>
      cbind (render_levels rest) (fun vs => Normal (v :: vs)))
  end.

(** The component function runs first (it throws on a property read of
    [null] or [undefined]); React then renders the children of the elements
    it returned. *)
Definition render_CurriculumCard (curriculum : JsVal)
  : Completion (option (list LevelView)) :=
  cbind (CurriculumCard curriculum) (fun r =>
  match r with
  | None => Normal None
  | Some cards =>
      cbind (render_levels cards) (fun vs => Normal (Some vs))
  end).




End Page.

(* ===================================================================== *)
(** * Properties *)
(* ===================================================================== *)

Import Js Api Controller.

(** ** [trim] and blank inputs *)

Lemma trimStart_nil (s : jsstring) :
  trimStart s = [] <-> forallb is_whitespace s = true.
Proof.
  induction s as [| c rest IH]; simpl.
  - tauto.
  - destruct (is_whitespace c); simpl.
    + exact IH.
    + split; discriminate.
Qed.

Lemma trimStart_head (s : jsstring) (c : N) (rest : jsstring) :
  trimStart s = c :: rest -> is_whitespace c = false.
Proof.
  induction s as [| d s' IH]; simpl.
  - discriminate.
  - destruct (is_whitespace d) eqn:Hd.
    + exact IH.
    + intros H. injection H as <- _. exact Hd.
Qed.

Lemma forallb_rev {A : Type} (f : A -> bool) (l : list A) :
  forallb f (rev l) = forallb f l.
Proof.
  induction l as [| a l IH]; simpl.
  - reflexivity.
  - rewrite forallb_app, IH. simpl. rewrite andb_true_r. apply andb_comm.
Qed.

Lemma trim_nil (s : jsstring) :
  trim s = [] <-> forallb is_whitespace s = true.
Proof.
  unfold trim, trimEnd. split.
  - intros H.
    assert (Hrev : trimStart (rev (trimStart s)) = []).
    { destruct (trimStart (rev (trimStart s))) as [| x l]; [reflexivity |].
      simpl in H. destruct (rev l); discriminate. }
    apply trimStart_nil in Hrev. rewrite forallb_rev in Hrev.
    destruct (trimStart s) as [| c rest] eqn:Hs.
    + apply trimStart_nil. exact Hs.
    + apply trimStart_head in Hs. simpl in Hrev. rewrite Hs in Hrev.
      discriminate.
  - intros H. apply trimStart_nil in H. rewrite H. reflexivity.
Qed.

(** [!s.trim()] holds exactly of the strings made of white space only, the
    empty string among them. *)
Lemma blank_spec (s : jsstring) :
  blank s = true <-> forallb is_whitespace s = true.
Proof.
  rewrite <- trim_nil. unfold blank. simpl.
  destruct (trim s); simpl; split; intros H; congruence.
Qed.

Lemma blank_false (s : jsstring) :
  blank s = false <-> forallb is_whitespace s = false.
Proof.
  pose proof (blank_spec s) as H.
  destruct (blank s), (forallb is_whitespace s); intuition congruence.
Qed.

Example trim_inner_space : trim (js "  a b ") = js "a b".
Proof. reflexivity. Qed.

Example whitespace_units :
  map is_whitespace [8; 9; 13; 14; 32; 160; 8191; 8200; 8203; 65279]%N
  = [false; true; true; false; true; true; false; true; false; true].
Proof. reflexivity. Qed.

(** ** The API client *)

(** C7: each API client function sends the request the interface table
    gives, against the base address [http://127.0.0.1:8000/api/]:
    [generateCurriculum] POSTs [{topic}] to [curriculum/], [generateLesson]
    POSTs [{concept}] to [lesson/], [getFeedback] POSTs [{code}] to
    [feedback/], [listLanguages] GETs [execute/] with no body, [runCode] POSTs
    its payload to [execute/], and the only request [handleRun] sends carries
    the payload [{language, source_code, stdin}] built from the selected
    language, the code and the standard input. *)
Theorem C7_requests (t c k payload : JsVal) (s : AppState) :
  generateCurriculum t =
    {| method := POST; base := js "http://127.0.0.1:8000/api/";
       url := js "curriculum/"; body := Some (JObj [("topic", t)]) |}
  /\ generateLesson c =
    {| method := POST; base := js "http://127.0.0.1:8000/api/";
       url := js "lesson/"; body := Some (JObj [("concept", c)]) |}
  /\ getFeedback k =
    {| method := POST; base := js "http://127.0.0.1:8000/api/";
       url := js "feedback/"; body := Some (JObj [("code", k)]) |}
  /\ listLanguages =
    {| method := GET; base := js "http://127.0.0.1:8000/api/";
       url := js "execute/"; body := None |}
  /\ runCode payload =
    {| method := POST; base := js "http://127.0.0.1:8000/api/";
       url := js "execute/"; body := Some payload |}
  /\ calls (trace_of (handleRun_begin s)) =
       (if blank (code s) then []
        else [ {| method := POST; base := js "http://127.0.0.1:8000/api/";
                  url := js "execute/";
                  body := Some (JObj [("language", JStr (selectedLanguage s));
                                      ("source_code", JStr (code s));
                                      ("stdin", JStr (stdin s))]) |} ]).
Proof.
  repeat split.
  unfold handleRun_begin, bind, read, trace_of. simpl.
  destruct (blank (code s)); reflexivity.
Qed.

(** ** The handlers, run *)

Ltac run_handler :=
  unfold dispatch, click, PrimaryButton, onClick, resume, disabled_prop,
    select_onChange, editor_onChange, cleanup,
    handleGenerate_begin, handleGenerate_resume,
    handleExplain_begin, handleExplain_resume,
    handleFeedback_begin, handleFeedback_resume,
    handleRun_begin, handleRun_resume,
    fetchLanguages_begin, fetchLanguages_resume,
    finally, try_catch, await, bind, ret, throw, lift, read, call,
    console_error, emit,
    setTopic, setCurriculum, setTopicLoading, setConcept, setLesson,
    setLessonLoading, setCode, setStdin, setFeedback, setFeedbackLoading,
    setLanguages, setLanguagesLoading, setLanguageError, setSelectedLanguage,
    setSelectedLanguageWith, setExecutionLoading, setExecutionResult, setter;
  cbn [input loading_prop].

(** The handler of a button returns at once on a blank input. *)
Lemma onClick_blank (b : Button) (s : AppState) :
  blank (input b s) = true -> onClick b s = (Normal tt, s, []).
Proof.
  intros H. destruct b; run_handler; cbn [input] in H; rewrite H; reflexivity.
Qed.

(** A click on a disabled button does nothing. *)
Lemma click_disabled (b : Button) (s : AppState) :
  blank (input b s) || loading_prop b s = true ->
  dispatch (Click b) s = (Normal tt, s, []).
Proof.
  intros H. run_handler. cbn [input loading_prop] in H.
  destruct b; cbn [input loading_prop] in *; rewrite H; reflexivity.
Qed.

(** A click on an enabled button raises the loading flag and sends the
    request; [handleRun] also empties its result cell in between. *)
Lemma click_enabled (b : Button) (s : AppState) :
  blank (input b s) = false -> loading_prop b s = false ->
  dispatch (Click b) s =
    (Normal tt,
     match b with
     | RunJudge0 => put_executionResult JNull (put_executionLoading true s)
     | _ => put_loading b true s
     end,
     Write (loading_cell b)
       :: match b with
          | RunJudge0 => [Write CExecutionResult]
          | _ => []
          end ++ [Call (request b s)]).
Proof.
  intros Hi Hl.
  destruct b; run_handler; cbn [input loading_prop] in *;
    rewrite Hi, Hl; cbn; rewrite Hi; reflexivity.
Qed.

(** A rejected call: the error is logged, the handler's fixed error value (for
    [handleRun], the value picked by [fallback]) is stored, and the loading
    flag is lowered. *)
Lemma resume_rejected (b : Button) (err : JsVal) (s : AppState) :
  dispatch (Settled b (Rejected err)) s =
    (Normal tt,
     put_loading b false
       (put_result b
          match b with
          | RunJudge0 => JObj [("error", fallback err)]
          | _ => JObj [("error", JStr (js "failed to fetch"))]
          end s),
     [ConsoleError err; Write (result_cell b); Write (loading_cell b)]).
Proof. destruct b; reflexivity. Qed.

(** A resolved call of [handleExplain] or [handleRun]: the body is stored as
    it came. *)
Lemma resume_resolved_verbatim (b : Button) (res : Response JsVal)
    (s : AppState) :
  b = Explain \/ b = RunJudge0 ->
  dispatch (Settled b (Resolved res)) s =
    (Normal tt, put_loading b false (put_result b (data res) s),
     [Write (result_cell b); Write (loading_cell b)]).
Proof. intros [-> | ->]; reflexivity. Qed.

(** A resolved call of [handleGenerate] or [handleFeedback]: the field
    [curriculum] (resp. [feedback]) of the body when it is truthy, else the
    body; a body that is [null] or [undefined] makes the field read throw,
    and the [catch] block stores the error value. *)
Lemma resume_resolved_field (b : Button) (res : Response JsVal)
    (s : AppState) :
  b = Generate \/ b = GetFeedback ->
  dispatch (Settled b (Resolved res)) s =
    let field := match b with Generate => "curriculum" | _ => "feedback" end in
    if nullish (data res)
    then (Normal tt,
          put_loading b false
            (put_result b (JObj [("error", JStr (js "failed to fetch"))]) s),
          [ConsoleError TypeError; Write (result_cell b);
           Write (loading_cell b)])
    else (Normal tt,
          put_loading b false
            (put_result b (jor (optprop (data res) field) (data res)) s),
          [Write (result_cell b); Write (loading_cell b)]).
Proof.
  intros [-> | ->]; destruct res as [d]; destruct d; reflexivity.
Qed.

(** [fetchLanguages] after the cleanup ran: nothing happens. *)
Lemma fetchLanguages_cancelled (p : Settlement (option LanguagesBody))
    (s : AppState) :
  cancelled s = true ->
  dispatch (LanguagesSettled p) s = (Normal tt, s, []).
Proof.
  intros H. destruct p; run_handler; repeat (rewrite H; cbn); reflexivity.
Qed.

Lemma fetchLanguages_resolved (res : Response (option LanguagesBody))
    (s : AppState) :
  cancelled s = false ->
  dispatch (LanguagesSettled (Resolved res)) s =
    (Normal tt,
     put_languagesLoading false
       (put_languageError JNull
          (put_selectedLanguage
             (selectLanguage (languages_of res) (selectedLanguage s))
             (put_languages (languages_of res) s))),
     [Write CLanguages; Write CSelectedLanguage; Write CLanguageError;
      Write CLanguagesLoading]).
Proof.
  intros H. run_handler. repeat (rewrite H; cbn). reflexivity.
Qed.

Lemma fetchLanguages_rejected (err : JsVal) (s : AppState) :
  cancelled s = false ->
  dispatch (LanguagesSettled (Rejected err)) s =
    (Normal tt,
     put_languagesLoading false
       (put_languageError (JStr languages_unavailable) s),
     [ConsoleError err; Write CLanguageError; Write CLanguagesLoading]).
Proof.
  intros H. run_handler. repeat (rewrite H; cbn). reflexivity.
Qed.

(** The language select stores one of its options, when it is enabled. *)
Lemma select_spec (v : jsstring) (s : AppState) :
  dispatch (SelectLanguage v) s =
    if select_disabled s then (Normal tt, s, [])
    else if has_key (languages s) v
         then (Normal tt, put_selectedLanguage v s, [Write CSelectedLanguage])
         else (Normal tt, s, []).
Proof.
  run_handler. destruct (select_disabled s); [reflexivity |].
  destruct (has_key (languages s) v); reflexivity.
Qed.

(** ** Every event: completion, written cells, the cancellation flag *)

(** Splits a goal about [dispatch ev s] into the branches the handlers take. *)
Ltac cases_of_event ev s :=
  let b := fresh "b" in
  let p := fresh "p" in
  let d := fresh "d" in
  let v := fresh "v" in
  let E := fresh "E" in
  destruct ev as [? | ? | ? | ? | v | b | p | b p |];
  [ | | |
  | rewrite (select_spec v s);
    destruct (select_disabled s) eqn:E;
    [ | destruct (has_key (languages s) v) eqn:? ]
  | destruct (blank (input b s) || loading_prop b s) eqn:E;
    [ rewrite (click_disabled b s E)
    | apply orb_false_elim in E; destruct E as [? ?];
      rewrite (click_enabled b s) by assumption; destruct b ]
  | destruct (cancelled s) eqn:E;
    [ rewrite (fetchLanguages_cancelled p s E)
    | destruct p;
      [ rewrite (fetchLanguages_resolved _ s E)
      | rewrite (fetchLanguages_rejected _ s E) ] ]
  | destruct p as [[d] | ?];
    [ destruct b;
      [ rewrite (resume_resolved_field Generate _ s) by (left; reflexivity);
        cbn zeta; cbn [data]; destruct (nullish d)
      | rewrite (resume_resolved_verbatim Explain _ s) by (left; reflexivity)
      | rewrite (resume_resolved_verbatim RunJudge0 _ s)
          by (right; reflexivity)
      | rewrite (resume_resolved_field GetFeedback _ s)
          by (right; reflexivity);
        cbn zeta; cbn [data]; destruct (nullish d) ]
    | rewrite (resume_rejected b _ s); destruct b ]
  | ].

(** No handler lets an exception escape. *)
Lemma dispatch_normal (ev : Event) (s : AppState) :
  completion_of (dispatch ev s) = Normal tt.
Proof.
  unfold completion_of. cases_of_event ev s; reflexivity.
Qed.

(** A handler changes only the cells whose setter it calls. *)
Lemma dispatch_frame (ev : Event) (s : AppState) (c : Cell) :
  ~ In c (writes (trace_of (dispatch ev s))) ->
  peek c (step s ev) = peek c s.
Proof.
  unfold step, state_of, trace_of.
  cases_of_event ev s; cbn; intros Hc; destruct c; cbn;
    try reflexivity; exfalso; apply Hc; tauto.
Qed.

(** Only the effect's cleanup touches [cancelled], and it sets it. *)
Lemma cancelled_step (ev : Event) (s : AppState) :
  cancelled (step s ev) =
    match ev with
    | Unmount => true
    | _ => cancelled s
    end.
Proof.
  unfold step, state_of.
  cases_of_event ev s; cbn; congruence.
Qed.

Lemma cancelled_steps (evs : list Event) (s : AppState) :
  cancelled s = true -> cancelled (steps s evs) = true.
Proof.
  revert s. induction evs as [| ev evs IH]; intros s H; simpl.
  - exact H.
  - apply IH. rewrite cancelled_step. destruct ev; assumption || reflexivity.
Qed.

(** The requests an event sends: one, by the handler of an enabled button. *)
Lemma dispatch_calls (ev : Event) (s : AppState) :
  calls (trace_of (dispatch ev s)) =
    match ev with
    | Click b =>
        if blank (input b s) || loading_prop b s then []
        else [request b s]
    | _ => []
    end.
Proof.
  unfold trace_of. cases_of_event ev s; cbn; try reflexivity;
    cbn [input loading_prop] in *;
    repeat match goal with H : _ = false |- _ => rewrite H end; reflexivity.
Qed.

(** The request of a button's handler goes to the endpoint of its
    operation, and the five endpoints differ. *)
Lemma request_endpoint (b : Button) (s : AppState) :
  endpoint_of (request b s) = endpoint (OnClick b).
Proof. destruct b; reflexivity. Qed.

Lemma endpoint_inj (h1 h2 : Handler) :
  endpoint h1 = endpoint h2 -> h1 = h2.
Proof.
  destruct h1 as [| []], h2 as [| []]; cbv; intros H;
    reflexivity || discriminate H.
Qed.

(** ** Blank inputs *)

(** C6: when the input of an operation is blank (empty or made of white space
    only), triggering the operation sends no request, calls no setter and
    leaves the whole state as it was; this holds of the handler itself, of a
    click on its button, and of the run (no call comes in flight). *)
Theorem C6_blank_input_is_ignored (b : Button) (s : AppState) :
  forallb is_whitespace (input b s) = true ->
  onClick b s = (Normal tt, s, [])
  /\ dispatch (Click b) s = (Normal tt, s, [])
  /\ (forall pending,
        wstep {| view := s; awaiting := pending |} (Click b)
        = Some {| view := s; awaiting := pending |}).
Proof.
  intros H. apply blank_spec in H.
  assert (Hc : dispatch (Click b) s = (Normal tt, s, [])).
  { apply click_disabled. rewrite H. reflexivity. }
  split; [apply onClick_blank; exact H |].
  split; [exact Hc |].
  intros pending. unfold wstep. cbn [view awaiting]. rewrite Hc. reflexivity.
Qed.

Lemma C6_witness :
  let s := put_code [32; 9; 160; 10; 8195; 65279]%N (view mount) in
  onClick RunJudge0 s = (Normal tt, s, [])
  /\ dispatch (Click RunJudge0) s = (Normal tt, s, [])
  /\ (forall pending,
        wstep {| view := s; awaiting := pending |} (Click RunJudge0)
        = Some {| view := s; awaiting := pending |}).
Proof.
  exact (C6_blank_input_is_ignored RunJudge0
           (put_code [32; 9; 160; 10; 8195; 65279]%N (view mount))
           eq_refl).
Defined.

(** ** The loading guard *)

(** C2: while the loading flag of an operation is up, no event makes the
    component send a request to that operation's endpoint, whichever of the
    five operations it is; and a click on the operation's button changes
    nothing and does nothing (the button is disabled: [PrimaryButton]
    computes [disabled || loading]). *)
Theorem C2_no_call_while_loading (h : Handler) (s : AppState) (ev : Event) :
  loading h s = true ->
  (forall r, In r (calls (trace_of (dispatch ev s))) ->
             endpoint_of r <> endpoint h)
  /\ (forall b, h = OnClick b -> dispatch (Click b) s = (Normal tt, s, [])).
Proof.
  intros Hl. split.
  - intros r Hr. rewrite dispatch_calls in Hr.
    destruct ev; try contradiction.
    destruct (blank (input b s) || loading_prop b s) eqn:E;
      [contradiction |].
    destruct Hr as [<- | []]. rewrite request_endpoint.
    intros Heq. apply endpoint_inj in Heq. subst h. simpl in Hl.
    rewrite Hl, orb_true_r in E. discriminate.
  - intros b ->. apply click_disabled. simpl in Hl. rewrite Hl.
    apply orb_true_r.
Qed.

Lemma C2_witness :
  let s := state_of (dispatch (Click Generate)
                       (put_topic (js "python") (view mount))) in
  (forall r, In r (calls (trace_of (dispatch (Click Generate) s))) ->
             endpoint_of r <> endpoint (OnClick Generate))
  /\ (forall b, OnClick Generate = OnClick b ->
                dispatch (Click b) s = (Normal tt, s, [])).
Proof.
  exact (C2_no_call_while_loading (OnClick Generate)
           (state_of (dispatch (Click Generate)
                        (put_topic (js "python") (view mount))))
           (Click Generate) eq_refl).
Defined.

(** ** A successful run *)

(** C9: when the call of [handleRun] resolves, the body of the response is
    stored in [executionResult] as it came, whatever it is; the only other
    cell written is the loading flag, lowered afterwards. *)
Theorem C9_execution_result_verbatim (s : AppState) (res : Response JsVal) :
  dispatch (Settled RunJudge0 (Resolved res)) s =
    (Normal tt,
     put_executionLoading false (put_executionResult (data res) s),
     [Write CExecutionResult; Write CExecutionLoading])
  /\ executionResult (step s (Settled RunJudge0 (Resolved res))) = data res.
Proof. split; reflexivity. Qed.

(** The response of the specification's example, [{status: {id: 3, ...},
    stdout: "hi\n"}]. *)
Example run_accepted :
  let body :=
    JObj [("status", JObj [("id", JNum 3);
                           ("description", JStr (js "Accepted"))]);
          ("stdout", JStr (js "hi" ++ [10%N]))] in
  executionResult
    (step (view mount) (Settled RunJudge0 (Resolved {| data := body |})))
  = body.
Proof. reflexivity. Qed.

(** ** Teardown *)

(** C4: once the component is torn down (the effect's cleanup ran), whatever
    happens next, the settlement of the languages fetch, resolved or rejected,
    calls no setter, logs nothing and leaves the state as it is: the language
    list, the selected language, the language error and the languages loading
    flag among the rest. *)
Theorem C4_teardown_discards_fetch (s : AppState) (evs : list Event)
    (p : Settlement (option LanguagesBody)) :
  dispatch (LanguagesSettled p) (steps (step s Unmount) evs)
  = (Normal tt, steps (step s Unmount) evs, []).
Proof.
  apply fetchLanguages_cancelled, cancelled_steps.
  rewrite cancelled_step. reflexivity.
Qed.

(** ** Failures *)

(** The state after a rejection.  When the call of an operation rejects, the
    handler completes normally (the rejection is caught); it calls no setter
    but that of the operation's own result (or error) cell and of its own
    loading flag, so every other cell keeps its value: the results and the
    loading flags of the other operations, the inputs, the language list and
    the selection.  The cell then holds an object with a truthy [error]
    property (for the languages fetch, the fixed text, unless the component
    was torn down).  What the page makes of that state is another matter,
    taken up at the end of the file. *)
Lemma rejection_is_local (h : Handler) (err : JsVal) (s : AppState) :
  completion_of (dispatch (rejection h err) s) = Normal tt
  /\ (forall c, In c (writes (trace_of (dispatch (rejection h err) s))) ->
                In c (failure_cells h))
  /\ (forall c, ~ In c (failure_cells h) ->
                peek c (step s (rejection h err)) = peek c s)
  /\ (forall h', h' <> h ->
                 loading h' (step s (rejection h err)) = loading h' s)
  /\ (forall b, OnClick b <> h ->
                result b (step s (rejection h err)) = result b s)
  /\ cancelled (step s (rejection h err)) = cancelled s
  /\ match h with
     | OnClick b =>
         truthy (optprop (result b (step s (rejection h err))) "error") = true
     | FetchLanguages =>
         languageError (step s (rejection h err)) =
           if cancelled s then languageError s else JStr languages_unavailable
     end
  /\ (forall ev s', completion_of (dispatch ev s') = Normal tt).
Proof.
  assert (Hw : forall c,
             In c (writes (trace_of (dispatch (rejection h err) s))) ->
             In c (failure_cells h)).
  { destruct h as [| b]; cbn [rejection].
    - destruct (cancelled s) eqn:E.
      + rewrite (fetchLanguages_cancelled _ s E). intros c [].
      + rewrite (fetchLanguages_rejected _ s E). cbn. tauto.
    - rewrite resume_rejected. cbn. tauto. }
  assert (Hf : forall c, ~ In c (failure_cells h) ->
                         peek c (step s (rejection h err)) = peek c s).
  { intros c Hc. apply dispatch_frame. intros Hin. apply Hc, Hw, Hin. }
  split; [apply dispatch_normal |].
  split; [exact Hw |].
  split; [exact Hf |].
  split.
  { intros h' Hne.
    destruct h' as [| b'].
    - apply (Hf CLanguagesLoading).
      destruct h as [| []]; cbn; intuition congruence.
    - destruct b'.
      + apply (Hf CTopicLoading).
        destruct h as [| []]; cbn; intuition congruence.
      + apply (Hf CLessonLoading).
        destruct h as [| []]; cbn; intuition congruence.
      + apply (Hf CExecutionLoading).
        destruct h as [| []]; cbn; intuition congruence.
      + apply (Hf CFeedbackLoading).
        destruct h as [| []]; cbn; intuition congruence. }
  split.
  { intros b' Hne. destruct b'.
    - apply (Hf CCurriculum).
      destruct h as [| []]; cbn; intuition congruence.
    - apply (Hf CLesson).
      destruct h as [| []]; cbn; intuition congruence.
    - apply (Hf CExecutionResult).
      destruct h as [| []]; cbn; intuition congruence.
    - apply (Hf CFeedback).
      destruct h as [| []]; cbn; intuition congruence. }
  split.
  { rewrite cancelled_step. destruct h; reflexivity. }
  split.
  { destruct h as [| b]; cbn [rejection]; unfold step.
    - destruct (cancelled s) eqn:E.
      + rewrite (fetchLanguages_cancelled _ s E). reflexivity.
      + rewrite (fetchLanguages_rejected _ s E). reflexivity.
    - rewrite resume_rejected. destruct b; try reflexivity.
      cbn. unfold fallback, jor, execution_failed.
      repeat match goal with
             | |- context [if truthy ?v then _ else _] =>
                 destruct (truthy v) eqn:?
             end; try assumption; reflexivity. }
  intros ev s'. apply dispatch_normal.
Qed.

(** C3, as the code has it: when its call rejects an operation stores an
    error value that is never empty.  [handleRun] picks it by preference: the
    [error] field of the response body when it is truthy, else the error's
    own [message] when it is truthy, else a fixed text.  [handleGenerate],
    [handleExplain] and [handleFeedback] store the fixed text [failed to
    fetch] whatever the error carries, and [fetchLanguages] stores its own
    fixed text unless the component was torn down. *)
Theorem C3_stored_error (err : JsVal) (s : AppState) :
  curriculum (step s (Settled Generate (Rejected err)))
    = JObj [("error", JStr (js "failed to fetch"))]
  /\ lesson (step s (Settled Explain (Rejected err)))
    = JObj [("error", JStr (js "failed to fetch"))]
  /\ feedback (step s (Settled GetFeedback (Rejected err)))
    = JObj [("error", JStr (js "failed to fetch"))]
  /\ languageError (step s (LanguagesSettled (Rejected err)))
    = (if cancelled s then languageError s
       else JStr (js "Unable to load Judge0 languages. Check your backend connection."))
  /\ executionResult (step s (Settled RunJudge0 (Rejected err)))
    = JObj [("error", fallback err)]
  /\ fallback err
    = (if truthy (optprop (optprop (optprop err "response") "data") "error")
       then optprop (optprop (optprop err "response") "data") "error"
       else if truthy (optprop err "message")
            then optprop err "message"
            else JStr (js "Execution failed. Please try again."))
  /\ truthy (fallback err) = true.
Proof.
  repeat (split; [reflexivity |]).
  split.
  { unfold step. destruct (cancelled s) eqn:E.
    - rewrite (fetchLanguages_cancelled _ s E). reflexivity.
    - rewrite (fetchLanguages_rejected _ s E). reflexivity. }
  split; [reflexivity |].
  unfold fallback, jor, execution_failed.
  destruct (truthy (optprop (optprop (optprop err "response") "data") "error"))
    eqn:E1.
  - rewrite E1. split; [reflexivity | exact E1].
  - destruct (truthy (optprop err "message")) eqn:E2.
    + rewrite ?E2. split; [reflexivity | assumption || reflexivity].
    + rewrite ?E2. split; reflexivity.
Qed.

(** C3 as stated fails: a curriculum call rejected with a backend-supplied
    [error] field stores [failed to fetch], not that field. *)
Lemma C3_counterexample :
  let err :=
    JObj [("message", JStr (js "Request failed with status code 500"));
          ("response",
           JObj [("data", JObj [("error", JStr (js "quota exceeded"))])])] in
  let s := steps (view mount)
             [InputTopic (js "python"); Click Generate;
              Settled Generate (Rejected err)] in
  optprop (optprop (optprop err "response") "data") "error"
    = JStr (js "quota exceeded")
  /\ curriculum s = JObj [("error", JStr (js "failed to fetch"))]
  /\ curriculum s <> JObj [("error", JStr (js "quota exceeded"))].
Proof.
  cbv zeta. split; [reflexivity |]. split; [reflexivity |].
  intros H. vm_compute in H. discriminate H.
Qed.

(** ** The transition rule *)

(** C5, as the code has it.  Trigger: a click on the button of an operation
    whose input is not blank and whose loading flag is down raises the flag
    and then sends the request; only [handleRun] empties its result cell in
    between, the other handlers leave the previous result or error where it
    is.  Completion: however the call settles, the handler completes normally
    after writing first its result cell (the result, or the error value), then
    its loading flag, which is down afterwards.  The languages fetch does the
    same on mount and, unless the component was torn down, on settlement; it
    clears its error on success only. *)
Theorem C5_transition_rule (b : Button) (s s' : AppState)
    (p : Settlement JsVal) (q : Settlement (option LanguagesBody)) :
  blank (input b s) = false ->
  loading_prop b s = false ->
  (trace_of (dispatch (Click b) s) =
     Write (loading_cell b)
       :: match b with
          | RunJudge0 => [Write CExecutionResult]
          | _ => []
          end ++ [Call (request b s)]
   /\ loading_prop b (step s (Click b)) = true
   /\ result b (step s (Click b)) =
        match b with
        | RunJudge0 => JNull
        | _ => result b s
        end)
  /\ (completion_of (dispatch (Settled b p) s') = Normal tt
      /\ writes (trace_of (dispatch (Settled b p) s'))
         = [result_cell b; loading_cell b]
      /\ loading_prop b (step s' (Settled b p)) = false
      /\ result b (step s' (Settled b p)) =
           match p with
           | Rejected err =>
               match b with
               | RunJudge0 => JObj [("error", fallback err)]
               | _ => JObj [("error", JStr (js "failed to fetch"))]
               end
           | Resolved res =>
               match b with
               | Explain | RunJudge0 => data res
               | Generate =>
                   if nullish (data res)
                   then JObj [("error", JStr (js "failed to fetch"))]
                   else jor (optprop (data res) "curriculum") (data res)
               | GetFeedback =>
                   if nullish (data res)
                   then JObj [("error", JStr (js "failed to fetch"))]
                   else jor (optprop (data res) "feedback") (data res)
               end
           end)
  /\ (fetchLanguages_begin initial
        = (Normal tt, view mount, [Write CLanguagesLoading; Call listLanguages])
      /\ languagesLoading (view mount) = true
      /\ languageError (view mount) = JNull)
  /\ (cancelled s' = false ->
      completion_of (dispatch (LanguagesSettled q) s') = Normal tt
      /\ writes (trace_of (dispatch (LanguagesSettled q) s')) =
           match q with
           | Resolved _ =>
               [CLanguages; CSelectedLanguage; CLanguageError;
                CLanguagesLoading]
           | Rejected _ => [CLanguageError; CLanguagesLoading]
           end
      /\ languagesLoading (step s' (LanguagesSettled q)) = false
      /\ languageError (step s' (LanguagesSettled q)) =
           match q with
           | Resolved _ => JNull
           | Rejected _ => JStr languages_unavailable
           end).
Proof.
  intros Hi Hl. split; [| split; [| split]].
  - unfold step. rewrite (click_enabled b s Hi Hl).
    destruct b; repeat split; reflexivity.
  - split; [apply dispatch_normal |].
    unfold step. destruct p as [[d] | err].
    + destruct b.
      * rewrite (resume_resolved_field Generate) by (left; reflexivity).
        cbn zeta. cbn [data]. destruct (nullish d); repeat split; reflexivity.
      * repeat split; reflexivity.
      * repeat split; reflexivity.
      * rewrite (resume_resolved_field GetFeedback) by (right; reflexivity).
        cbn zeta. cbn [data]. destruct (nullish d); repeat split; reflexivity.
    + rewrite resume_rejected. destruct b; repeat split; reflexivity.
  - repeat split; reflexivity.
  - intros Hc. split; [apply dispatch_normal |].
    unfold step. destruct q as [res | err].
    + rewrite (fetchLanguages_resolved res s' Hc). repeat split; reflexivity.
    + rewrite (fetchLanguages_rejected err s' Hc). repeat split; reflexivity.
Qed.

Lemma C5_witness :
  writes (trace_of (dispatch (Click Explain)
                      (put_concept (js "closures") (view mount))))
  = [CLessonLoading]
  /\ lessonLoading (step (view mount) (Settled Explain (Rejected JNull)))
     = false
  /\ languagesLoading (step (view mount) (LanguagesSettled (Rejected JNull)))
     = false.
Proof.
  pose proof (C5_transition_rule Explain
                (put_concept (js "closures") (view mount)) (view mount)
                (Rejected JNull) (Rejected JNull)
                eq_refl eq_refl) as H.
  split; [| split].
  - destruct H as [[H _] _]. rewrite H. reflexivity.
  - destruct H as [_ [[_ [_ [H _]]] _]]. exact H.
  - destruct H as [_ [_ [_ H]]]. exact (proj1 (proj2 (proj2 (H eq_refl)))).
Defined.

(** C5 as stated fails: after a failed curriculum call, a new click on
    Generate (input not blank, loading flag down) sends the request with the
    previous error still in place; the only cell written is the loading
    flag. *)
Lemma C5_counterexample :
  let s := steps (view mount)
             [InputTopic (js "python"); Click Generate;
              Settled Generate (Rejected JNull)] in
  blank (topic s) = false
  /\ topicLoading s = false
  /\ curriculum s = JObj [("error", JStr (js "failed to fetch"))]
  /\ trace_of (dispatch (Click Generate) s)
     = [Write CTopicLoading; Call (generateCurriculum (JStr (js "python")))]
  /\ curriculum (step s (Click Generate))
     = JObj [("error", JStr (js "failed to fetch"))].
Proof. cbv zeta. repeat split; reflexivity. Qed.

(** ** Runs *)

Lemma loading_prop_step (b : Button) (ev : Event) (s : AppState) :
  loading_prop b (step s ev) =
    match ev with
    | Click b' =>
        if Button_eq_dec b b'
        then loading_prop b s || negb (blank (input b s))
        else loading_prop b s
    | Settled b' _ => if Button_eq_dec b b' then false else loading_prop b s
    | _ => loading_prop b s
    end.
Proof.
  unfold step, state_of.
  cases_of_event ev s;
    repeat match goal with x : Button |- _ => destruct x end;
    cbn in *; try reflexivity;
    try match goal with
        | H : _ || _ = true |- _ => apply orb_prop in H; destruct H
        end;
    repeat match goal with H : _ = _ |- _ => rewrite H end;
    cbn; rewrite ?orb_true_r, ?orb_false_r; reflexivity.
Qed.

Lemma languagesLoading_step (ev : Event) (s : AppState) :
  languagesLoading (step s ev) =
    match ev with
    | LanguagesSettled _ => languagesLoading s && cancelled s
    | _ => languagesLoading s
    end.
Proof.
  unfold step, state_of.
  cases_of_event ev s; cbn; rewrite ?andb_true_r, ?andb_false_r; reflexivity.
Qed.

(** While the languages load the select is disabled: nothing but the
    settlement of the fetch changes the selection. *)
Lemma selectedLanguage_step (ev : Event) (s : AppState) :
  languagesLoading s = true ->
  selectedLanguage (step s ev) =
    match ev with
    | LanguagesSettled (Resolved res) =>
        if cancelled s then selectedLanguage s
        else selectLanguage (languages_of res) (selectedLanguage s)
    | _ => selectedLanguage s
    end.
Proof.
  intros Hl. unfold step, state_of.
  cases_of_event ev s; cbn; rewrite ?E; try reflexivity;
    try (destruct p; reflexivity);
    unfold select_disabled in E; rewrite Hl in E; discriminate E.
Qed.

Lemma count_remove1 (h h' : Handler) (l : list Handler) :
  count_occ Handler_eq_dec (remove1 h l) h' =
    if Handler_eq_dec h h'
    then pred (count_occ Handler_eq_dec l h')
    else count_occ Handler_eq_dec l h'.
Proof.
  induction l as [| x l IH]; simpl.
  - destruct (Handler_eq_dec h h'); reflexivity.
  - destruct (Handler_eq_dec h x) as [-> | Hx].
    + destruct (Handler_eq_dec x h') as [-> | Hne]; simpl.
      * destruct (Handler_eq_dec h' h'); [reflexivity | contradiction].
      * destruct (Handler_eq_dec x h'); [contradiction | reflexivity].
    + simpl. rewrite IH.
      destruct (Handler_eq_dec x h') as [-> | Hne];
        destruct (Handler_eq_dec h h') as [-> | Hne']; try reflexivity.
      contradiction.
Qed.

Lemma is_awaiting_in_flight (h : Handler) (w : World) :
  is_awaiting h w = true <-> 0 < in_flight h w.
Proof.
  unfold is_awaiting, in_flight.
  destruct (in_dec Handler_eq_dec h (awaiting w)) as [Hin | Hnin].
  - split; [intros _ | reflexivity].
    apply (count_occ_In Handler_eq_dec). exact Hin.
  - split; [discriminate |].
    intros H. apply (count_occ_In Handler_eq_dec) in H. contradiction.
Qed.

Lemma consistent_mount : consistent mount.
Proof.
  unfold consistent, in_flight. cbn. repeat split; try lia.
  intros []; reflexivity.
Qed.

(** An event that starts and settles no call keeps the calls in flight, the
    loading flags and, while the languages load, the selection. *)
Lemma consistent_quiet (w : World) (ev : Event) :
  consistent w ->
  (forall b, ev <> Click b) ->
  (forall p, ev <> LanguagesSettled p) ->
  (forall b p, ev <> Settled b p) ->
  consistent {| view := step (view w) ev; awaiting := awaiting w |}.
Proof.
  intros (Hb & Hle & Hfl) Hc Hl Hs.
  unfold consistent, in_flight in *. cbn [view awaiting].
  split; [| split].
  - intros b. rewrite loading_prop_step, Hb.
    destruct ev; try reflexivity.
    + exfalso. eapply Hc. reflexivity.
    + exfalso. eapply Hs. reflexivity.
  - exact Hle.
  - intros H1. destruct (Hfl H1) as [Hload Hsel].
    rewrite languagesLoading_step, (selectedLanguage_step ev _ Hload).
    destruct ev; try (split; assumption).
    exfalso. eapply Hl. reflexivity.
Qed.

(** A click leaves its handler awaiting exactly when the button was
    enabled. *)
Lemma wstep_click (w : World) (b : Button) :
  wstep w (Click b) =
    Some {| view := step (view w) (Click b);
            awaiting :=
              if blank (input b (view w)) || loading_prop b (view w)
              then awaiting w
              else OnClick b :: awaiting w |}.
Proof.
  unfold wstep. rewrite dispatch_calls.
  destruct (blank (input b (view w)) || loading_prop b (view w));
    reflexivity.
Qed.

Lemma consistent_step (w w' : World) (ev : Event) :
  consistent w -> wstep w ev = Some w' -> consistent w'.
Proof.
  intros Hw Hstep.
  destruct ev as [v | v | v | v | v | b | p | b p |];
    try (injection Hstep as <-; apply consistent_quiet;
         [exact Hw | discriminate ..]).
  - (* a click *)
    rewrite wstep_click in Hstep.
    destruct Hw as (Hb & Hle & Hfl).
    destruct (blank (input b (view w)) || loading_prop b (view w)) eqn:E.
    + unfold step in Hstep. rewrite (click_disabled b _ E) in Hstep.
      injection Hstep as <-.
      destruct w. exact (conj Hb (conj Hle Hfl)).
    + injection Hstep as <-. apply orb_false_elim in E.
      destruct E as [Hblank Hload].
      unfold consistent, in_flight in *. cbn [view awaiting].
      split; [| split].
      * intros b'. rewrite loading_prop_step. cbn [count_occ].
        specialize (Hb b').
        destruct (Button_eq_dec b' b) as [-> | Hne].
        -- rewrite Hload in Hb. rewrite Hb, Hload, Hblank.
           destruct (Handler_eq_dec (OnClick b) (OnClick b));
             [reflexivity | contradiction].
        -- destruct (Handler_eq_dec (OnClick b) (OnClick b')) as [Heq | _];
             [injection Heq as ->; contradiction | exact Hb].
      * cbn [count_occ].
        destruct (Handler_eq_dec (OnClick b) FetchLanguages);
          [discriminate | exact Hle].
      * cbn [count_occ].
        destruct (Handler_eq_dec (OnClick b) FetchLanguages);
          [discriminate |].
        intros H1. destruct (Hfl H1) as [Hl Hsel].
        rewrite languagesLoading_step, (selectedLanguage_step _ _ Hl).
        split; assumption.
  - (* the languages fetch settles *)
    unfold wstep in Hstep.
    destruct (is_awaiting FetchLanguages w) eqn:Ha; [| discriminate].
    injection Hstep as <-. apply is_awaiting_in_flight in Ha.
    destruct Hw as (Hb & Hle & Hfl).
    unfold consistent, in_flight in *. cbn [view awaiting].
    split; [| split].
    + intros b. rewrite loading_prop_step, count_remove1.
      destruct (Handler_eq_dec FetchLanguages (OnClick b));
        [discriminate | apply Hb].
    + rewrite count_remove1.
      destruct (Handler_eq_dec FetchLanguages FetchLanguages); lia.
    + rewrite count_remove1.
      destruct (Handler_eq_dec FetchLanguages FetchLanguages);
        [lia | contradiction].
  - (* the call of a button's handler settles *)
    unfold wstep in Hstep.
    destruct (is_awaiting (OnClick b) w) eqn:Ha; [| discriminate].
    injection Hstep as <-. apply is_awaiting_in_flight in Ha.
    destruct Hw as (Hb & Hle & Hfl).
    unfold consistent, in_flight in *. cbn [view awaiting].
    split; [| split].
    + intros b'. rewrite loading_prop_step, count_remove1.
      specialize (Hb b').
      destruct (Button_eq_dec b' b) as [-> | Hne].
      * destruct (Handler_eq_dec (OnClick b) (OnClick b));
          [| contradiction].
        destruct (loading_prop b (view w)); lia.
      * destruct (Handler_eq_dec (OnClick b) (OnClick b')) as [Heq | _];
          [injection Heq as ->; contradiction | exact Hb].
    + rewrite count_remove1.
      destruct (Handler_eq_dec (OnClick b) FetchLanguages);
        [discriminate | exact Hle].
    + rewrite count_remove1.
      destruct (Handler_eq_dec (OnClick b) FetchLanguages);
        [discriminate |].
      intros H1. destruct (Hfl H1) as [Hl Hsel].
      rewrite languagesLoading_step, (selectedLanguage_step _ _ Hl).
      split; assumption.
Qed.

(** Every run of a mounted component is consistent. *)
Lemma reachable_consistent (w : World) : reachable w -> consistent w.
Proof.
  induction 1 as [| w ev w' _ IH Hstep].
  - exact consistent_mount.
  - exact (consistent_step w w' ev IH Hstep).
Qed.

(** At most one call of each operation is in flight, and its loading flag is
    up meanwhile. *)
Lemma one_call_in_flight (w : World) (h : Handler) :
  reachable w ->
  in_flight h w <= 1 /\ (in_flight h w = 1 -> loading h (view w) = true).
Proof.
  intros Hr. destruct (reachable_consistent w Hr) as (Hb & Hle & Hfl).
  destruct h as [| b]; cbn [loading].
  - split; [exact Hle | intros H; apply Hfl, H].
  - rewrite Hb. destruct (loading_prop b (view w)); split; auto; discriminate.
Qed.

(** No event starts a languages fetch: the effect runs on mount only. *)
Lemma fetch_not_restarted (w w' : World) (ev : Event) :
  wstep w ev = Some w' ->
  in_flight FetchLanguages w' <= in_flight FetchLanguages w.
Proof.
  unfold in_flight.
  destruct ev as [v | v | v | v | v | b | p | b p |]; intros H;
    try (injection H as <-; cbn [awaiting]; lia).
  - rewrite wstep_click in H. injection H as <-. cbn [awaiting].
    destruct (blank (input b (view w)) || loading_prop b (view w));
      [lia |].
    cbn [count_occ].
    destruct (Handler_eq_dec (OnClick b) FetchLanguages);
      [discriminate | lia].
  - unfold wstep in H. destruct (is_awaiting FetchLanguages w);
      [| discriminate].
    injection H as <-. cbn [awaiting]. rewrite count_remove1.
    destruct (Handler_eq_dec FetchLanguages FetchLanguages); lia.
  - unfold wstep in H. destruct (is_awaiting (OnClick b) w);
      [| discriminate].
    injection H as <-. cbn [awaiting]. rewrite count_remove1.
    destruct (Handler_eq_dec (OnClick b) FetchLanguages); lia.
Qed.

Lemma fetch_not_restarted_run (evs : list Event) (w w' : World) :
  wsteps w evs = Some w' ->
  in_flight FetchLanguages w' <= in_flight FetchLanguages w.
Proof.
  revert w. induction evs as [| ev evs IH]; intros w H; simpl in H.
  - injection H as <-. lia.
  - destruct (wstep w ev) as [w1 |] eqn:E; [| discriminate].
    apply fetch_not_restarted in E. apply IH in H. lia.
Qed.

(** ** The selected language *)

Lemma jsstring_eqb_eq (a b : jsstring) : jsstring_eqb a b = true <-> a = b.
Proof.
  unfold jsstring_eqb. destruct (list_eq_dec N.eq_dec a b); split;
    congruence.
Qed.

Lemma has_key_In (langs : list Language) (k : jsstring) :
  has_key langs k = true <-> In k (map key langs).
Proof.
  unfold has_key. rewrite existsb_exists, in_map_iff. split.
  - intros (l & Hin & Heq). apply jsstring_eqb_eq in Heq. eauto.
  - intros (l & Heq & Hin). exists l. split; [exact Hin |].
    apply jsstring_eqb_eq. exact Heq.
Qed.

Lemma activeLanguage_In (s : AppState) :
  In (selectedLanguage s) (map key (languages s)) ->
  exists lang, activeLanguage s = Some lang /\ key lang = selectedLanguage s.
Proof.
  unfold activeLanguage. intros H. apply in_map_iff in H.
  destruct H as (l & Heq & Hin).
  destruct (find _ (languages s)) as [lang |] eqn:F.
  - exists lang. split; [reflexivity |].
    apply find_some in F. apply jsstring_eqb_eq, F.
  - exfalso. apply (find_none _ _ F) in Hin.
    apply jsstring_eqb_eq in Heq. congruence.
Qed.

(** The updater, case by case. *)
Lemma selectLanguage_spec (langs : list Language) (cur : jsstring) :
  selectLanguage langs cur =
    if negb (jsstring_eqb cur []) && has_key langs cur then cur
    else match langs with
         | l :: _ =>
             if negb (jsstring_eqb (key l) []) then key l
             else if negb (jsstring_eqb cur []) then cur else js "python"
         | [] => if negb (jsstring_eqb cur []) then cur else js "python"
         end.
Proof.
  unfold selectLanguage.
  destruct cur as [| c cur]; cbn [truthy jsstring_eqb negb andb].
  - destruct langs as [| l rest]; [reflexivity |]. cbn.
    destruct (key l); reflexivity.
  - cbn. destruct (has_key langs (c :: cur)); [reflexivity |].
    destruct langs as [| l rest]; [reflexivity |]. cbn.
    destruct (key l); reflexivity.
Qed.

(** The updater yields a key of the list when the current key is one, or
    when the first key is not empty. *)
Lemma selectLanguage_member (langs : list Language) (cur : jsstring) :
  (cur <> [] /\ In cur (map key langs))
  \/ (exists l rest, langs = l :: rest /\ key l <> []) ->
  In (selectLanguage langs cur) (map key langs).
Proof.
  intros H. rewrite selectLanguage_spec.
  destruct (negb (jsstring_eqb cur []) && has_key langs cur) eqn:E.
  - apply andb_prop in E. apply has_key_In, E.
  - destruct H as [[Hne Hin] | (l & rest & -> & Hk)].
    + apply has_key_In in Hin. rewrite Hin, andb_true_r in E.
      apply negb_false_iff, jsstring_eqb_eq in E. contradiction.
    + destruct (jsstring_eqb (key l) []) eqn:K.
      * apply jsstring_eqb_eq in K. contradiction.
      * left. reflexivity.
Qed.

(** The updater never yields the empty string. *)
Lemma selectLanguage_nonempty (langs : list Language) (cur : jsstring) :
  jsstring_eqb (selectLanguage langs cur) [] = false.
Proof.
  rewrite selectLanguage_spec.
  destruct (negb (jsstring_eqb cur []) && has_key langs cur) eqn:E.
  - apply andb_prop in E. apply negb_true_iff, E.
  - destruct langs as [| l rest].
    + destruct (jsstring_eqb cur []) eqn:C; cbn [negb]; [reflexivity |].
      exact C.
    + destruct (jsstring_eqb (key l) []) eqn:K; cbn [negb]; [| exact K].
      destruct (jsstring_eqb cur []) eqn:C; cbn [negb]; [reflexivity |].
      exact C.
Qed.

(** Applying the updater twice is applying it once. *)
Lemma selectLanguage_idempotent (langs : list Language) (cur : jsstring) :
  selectLanguage langs (selectLanguage langs cur) = selectLanguage langs cur.
Proof.
  rewrite (selectLanguage_spec langs (selectLanguage langs cur)).
  rewrite selectLanguage_nonempty. cbn [negb andb].
  destruct (has_key langs (selectLanguage langs cur)) eqn:H;
    [reflexivity |].
  destruct langs as [| l rest]; [reflexivity |].
  destruct (jsstring_eqb (key l) []) eqn:K; cbn [negb]; [reflexivity |].
  exfalso.
  assert (Hin : In (selectLanguage (l :: rest) cur) (map key (l :: rest))).
  { apply selectLanguage_member. right. exists l, rest.
    split; [reflexivity |]. intros Hk. apply jsstring_eqb_eq in Hk.
    congruence. }
  apply has_key_In in Hin. congruence.
Qed.

(** The two selection cases of the specification's test list: with the
    response [python, js], a selection ["ruby"] becomes ["python"] and a
    selection ["js"] stays. *)
Example select_first_when_absent :
  selectLanguage
    [ {| key := js "python"; name := js "Python"; editor := js "python" |};
      {| key := js "js"; name := js "JavaScript"; editor := js "javascript" |} ]
    (js "ruby") = js "python".
Proof. reflexivity. Qed.

Example select_kept_when_present :
  selectLanguage
    [ {| key := js "python"; name := js "Python"; editor := js "python" |};
      {| key := js "js"; name := js "JavaScript"; editor := js "javascript" |} ]
    (js "js") = js "js".
Proof. reflexivity. Qed.

(** C1, as the code has it.  When the languages fetch of a mounted component
    resolves, the list is stored and the selection is re-evaluated once, by
    one call of the setter with the updater.  If the currently selected key
    is present in the returned set it is kept.  Otherwise the selection
    becomes the key of the first returned language when that key is not
    empty, and the current key is kept when the first key is empty; when the
    returned set is empty the selection is the fixed default ["python"].
    Afterwards the selection is the key of a language of the last-fetched set
    whenever the current key was in the set or the first returned key is not
    empty, so whenever the set is not empty and has no empty key.  The fetch
    settles once: no later event is a settlement of it, so a selection the
    user makes afterwards stands. *)
Theorem C1_selection_after_fetch (w w' : World)
    (res : Response (option LanguagesBody)) :
  reachable w ->
  cancelled (view w) = false ->
  wstep w (LanguagesSettled (Resolved res)) = Some w' ->
  languages (view w') = languages_of res
  /\ selectedLanguage (view w')
     = selectLanguage (languages_of res) (selectedLanguage (view w))
  /\ count_occ Cell_eq_dec
       (writes (trace_of (dispatch (LanguagesSettled (Resolved res)) (view w))))
       CSelectedLanguage = 1
  /\ selectedLanguage (view w) = js "python"
  /\ (In (selectedLanguage (view w)) (map key (languages_of res)) ->
      selectedLanguage (view w') = selectedLanguage (view w))
  /\ (~ In (selectedLanguage (view w)) (map key (languages_of res)) ->
      forall l rest,
        languages_of res = l :: rest ->
        selectedLanguage (view w')
        = if jsstring_eqb (key l) [] then selectedLanguage (view w)
          else key l)
  /\ (languages_of res = [] -> selectedLanguage (view w') = js "python")
  /\ (In (selectedLanguage (view w)) (map key (languages_of res))
      \/ (exists l rest, languages_of res = l :: rest /\ key l <> []) ->
      In (selectedLanguage (view w')) (map key (languages (view w')))
      /\ exists lang, activeLanguage (view w') = Some lang
                      /\ key lang = selectedLanguage (view w'))
  /\ (languages_of res <> [] ->
      (forall l, In l (languages_of res) -> key l <> []) ->
      In (selectedLanguage (view w')) (map key (languages (view w'))))
  /\ (forall evs w'' p,
        wsteps w' evs = Some w'' -> wstep w'' (LanguagesSettled p) = None).
Proof.
  intros Hr Hc Hstep.
  destruct (reachable_consistent w Hr) as (_ & Hle & Hfl).
  unfold wstep in Hstep.
  destruct (is_awaiting FetchLanguages w) eqn:Ha; [| discriminate].
  injection Hstep as <-. apply is_awaiting_in_flight in Ha.
  assert (H1 : in_flight FetchLanguages w = 1) by lia.
  destruct (Hfl H1) as [_ Hsel].
  unfold step. rewrite (fetchLanguages_resolved res (view w) Hc).
  cbn [view awaiting state_of trace_of fst snd languages selectedLanguage
       put_languagesLoading put_languageError put_selectedLanguage
       put_languages].
  assert (Hmem : In (selectedLanguage (view w)) (map key (languages_of res))
                 \/ (exists l rest,
                       languages_of res = l :: rest /\ key l <> []) ->
                 In (selectLanguage (languages_of res)
                       (selectedLanguage (view w)))
                    (map key (languages_of res))).
  { intros Hm. apply selectLanguage_member. destruct Hm as [Hin | Hf].
    - left. split; [| exact Hin]. rewrite Hsel. discriminate.
    - right. exact Hf. }
  split; [reflexivity |].
  split; [reflexivity |].
  split; [reflexivity |].
  split; [exact Hsel |].
  split.
  { intros Hin. rewrite selectLanguage_spec.
    apply has_key_In in Hin. rewrite Hin, Hsel. reflexivity. }
  split.
  { intros Hn l rest Hl. rewrite selectLanguage_spec, Hl.
    rewrite <- Hl.
    destruct (has_key (languages_of res) (selectedLanguage (view w))) eqn:Hk.
    - exfalso. apply Hn, has_key_In, Hk.
    - rewrite andb_false_r, Hsel.
      destruct (jsstring_eqb (key l) []); reflexivity. }
  split.
  { intros He. rewrite He, Hsel. reflexivity. }
  split.
  { intros Hm. split; [exact (Hmem Hm) |].
    apply (activeLanguage_In
             (put_languagesLoading false
                (put_languageError JNull
                   (put_selectedLanguage
                      (selectLanguage (languages_of res)
                         (selectedLanguage (view w)))
                      (put_languages (languages_of res) (view w)))))).
    exact (Hmem Hm). }
  split.
  { intros Hne Hkeys. apply Hmem. right.
    destruct (languages_of res) as [| l rest]; [contradiction |].
    exists l, rest. split; [reflexivity |]. apply Hkeys. left. reflexivity. }
  intros evs w'' p Hrun.
  apply fetch_not_restarted_run in Hrun.
  unfold in_flight in Hrun at 2. cbn [awaiting] in Hrun.
  rewrite count_remove1 in Hrun.
  destruct (Handler_eq_dec FetchLanguages FetchLanguages);
    [| contradiction].
  unfold in_flight in H1. rewrite H1 in Hrun. cbn [pred] in Hrun.
  unfold wstep.
  destruct (is_awaiting FetchLanguages w'') eqn:Ha'; [| reflexivity].
  apply is_awaiting_in_flight in Ha'. lia.
Qed.

Lemma C1_witness :
  let python := {| key := js "python"; name := js "Python";
                   editor := js "python" |} in
  let javascript := {| key := js "js"; name := js "JavaScript";
                       editor := js "javascript" |} in
  let res := {| data := Some {| body_languages :=
                                  Some [javascript; python] |} |} in
  let w' := {| view := step (view mount) (LanguagesSettled (Resolved res));
               awaiting := [] |} in
  wstep mount (LanguagesSettled (Resolved res)) = Some w'
  /\ selectedLanguage (view w') = js "python"
  /\ In (selectedLanguage (view w')) (map key (languages (view w')))
  /\ wstep w' (LanguagesSettled (Resolved res)) = None.
Proof.
  intros python javascript res w'.
  pose proof
    (C1_selection_after_fetch mount w' res reach_mount eq_refl eq_refl) as H.
  split; [reflexivity |]. split; [| split].
  - destruct H as (_ & H & _). rewrite H. reflexivity.
  - destruct H as (_ & _ & _ & _ & _ & _ & _ & H & _).
    apply H. left. right. left. reflexivity.
  - destruct H as (_ & _ & _ & _ & _ & _ & _ & _ & _ & H).
    exact (H [] w' (Resolved res) eq_refl).
Defined.

(** C1 as stated fails: the fetch of a mounted component resolves with two
    languages, the first with an empty key, neither with the key ["python"].
    The current key ["python"] is not in the returned set, yet the selection
    does not become the key of the first returned language: it stays
    ["python"], which is no member of the fetched set, and no language is
    active. *)
Lemma C1_counterexample :
  let plain := {| key := js ""; name := js "Plain text"; editor := js "" |} in
  let javascript := {| key := js "js"; name := js "JavaScript";
                       editor := js "javascript" |} in
  let res := {| data := Some {| body_languages :=
                                  Some [plain; javascript] |} |} in
  let s' := step (view mount) (LanguagesSettled (Resolved res)) in
  wstep mount (LanguagesSettled (Resolved res))
    = Some {| view := s'; awaiting := [] |}
  /\ ~ In (selectedLanguage (view mount)) (map key (languages_of res))
  /\ languages s' = [plain; javascript]
  /\ selectedLanguage s' = js "python"
  /\ selectedLanguage s' <> key plain
  /\ ~ In (selectedLanguage s') (map key (languages s'))
  /\ activeLanguage s' = None.
Proof.
  cbv zeta. repeat split; try reflexivity.
  - intros [H | [H | []]]; discriminate H.
  - discriminate.
  - intros [H | [H | []]]; discriminate H.
Qed.

(** C10: the default language key is ["python"].  It is the initial value of
    the selection; in every run it is still the selection as long as the
    languages fetch has not settled; and it is what the updater falls back to
    when the current key is empty and the fetched list is empty (or starts
    with an empty key), so a fetch resolving with no language leaves it
    selected. *)
Theorem C10_default_language (w : World)
    (res : Response (option LanguagesBody)) :
  reachable w ->
  in_flight FetchLanguages w = 1 ->
  selectedLanguage initial = js "python"
  /\ selectedLanguage (view w) = js "python"
  /\ selectLanguage [] (js "") = js "python"
  /\ (forall langs,
        langs = [] \/ (exists l rest, langs = l :: rest /\ key l = []) ->
        selectLanguage langs (js "") = js "python")
  /\ (languages_of res = [] ->
      selectedLanguage (step (view w) (LanguagesSettled (Resolved res)))
      = js "python").
Proof.
  intros Hr H1.
  destruct (reachable_consistent w Hr) as (_ & _ & Hfl).
  destruct (Hfl H1) as [Hload Hsel].
  split; [reflexivity |].
  split; [exact Hsel |].
  split; [reflexivity |].
  split.
  { intros langs [-> | (l & rest & -> & Hk)]; [reflexivity |].
    rewrite selectLanguage_spec. cbn. rewrite Hk. reflexivity. }
  intros He. rewrite (selectedLanguage_step _ _ Hload).
  destruct (cancelled (view w)); [exact Hsel |].
  rewrite He, Hsel. reflexivity.
Qed.

Lemma C10_witness :
  let w := {| view := put_code (js "print(1)") (view mount);
              awaiting := [FetchLanguages] |} in
  wsteps mount [EditorChange (Some (js "print(1)")); SelectLanguage (js "c")]
    = Some w
  /\ selectedLanguage (view w) = js "python"
  /\ selectedLanguage
       (step (view w)
          (LanguagesSettled (Resolved {| data := None |})))
     = js "python".
Proof.
  intros w.
  assert (Hr : reachable w).
  { apply (reach_step
             {| view := put_code (js "print(1)") (view mount);
                awaiting := [FetchLanguages] |}
             (SelectLanguage (js "c"))); [| reflexivity].
    apply (reach_step mount (EditorChange (Some (js "print(1)"))));
      [exact reach_mount | reflexivity]. }
  pose proof (C10_default_language w {| data := None |} Hr eq_refl) as H.
  split; [reflexivity |]. split.
  - exact (proj1 (proj2 H)).
  - exact (proj2 (proj2 (proj2 (proj2 H))) eq_refl).
Defined.

(* ===================================================================== *)
(** * Further properties of the component *)
(* ===================================================================== *)

Import Render.

(** ** Calls in flight and what the page shows meanwhile *)

Lemma wstep_view (w w' : World) (ev : Event) :
  wstep w ev = Some w' -> view w' = step (view w) ev.
Proof.
  destruct ev as [v | v | v | v | v | b | p | b p |]; intros H;
    try (injection H as <-; reflexivity).
  - unfold wstep in H. destruct (is_awaiting FetchLanguages w);
      [injection H as <-; reflexivity | discriminate].
  - unfold wstep in H. destruct (is_awaiting (OnClick b) w);
      [injection H as <-; reflexivity | discriminate].
Qed.

(** Only a settlement of the languages fetch writes the language list and
    the language error. *)
Lemma languages_step (ev : Event) (s : AppState) :
  (forall p, ev <> LanguagesSettled p) ->
  languages (step s ev) = languages s
  /\ languageError (step s ev) = languageError s.
Proof.
  intros Hne. split.
  - apply (dispatch_frame ev s CLanguages).
    unfold trace_of. cases_of_event ev s; cbn;
      first [ solve [intuition discriminate]
            | exfalso; eapply Hne; reflexivity ].
  - apply (dispatch_frame ev s CLanguageError).
    unfold trace_of. cases_of_event ev s; cbn;
      first [ solve [intuition discriminate]
            | exfalso; eapply Hne; reflexivity ].
Qed.

Lemma fetch_pending_view (w : World) :
  reachable w ->
  in_flight FetchLanguages w = 1 ->
  languages (view w) = [] /\ languageError (view w) = JNull.
Proof.
  induction 1 as [| w ev w' Hr IH Hstep]; intros H1.
  - split; reflexivity.
  - pose proof (fetch_not_restarted w w' ev Hstep) as Hle.
    destruct (reachable_consistent w Hr) as (_ & Hle1 & _).
    assert (Hw : in_flight FetchLanguages w = 1) by lia.
    destruct (IH Hw) as [Hl He].
    rewrite (wstep_view w w' ev Hstep).
    assert (Hne : forall p, ev <> LanguagesSettled p).
    { intros p ->. unfold wstep in Hstep.
      destruct (is_awaiting FetchLanguages w); [| discriminate].
      injection Hstep as <-. unfold in_flight in H1, Hw.
      cbn [awaiting] in H1. rewrite count_remove1 in H1.
      destruct (Handler_eq_dec FetchLanguages FetchLanguages);
        [| contradiction].
      rewrite Hw in H1. discriminate H1. }
    destruct (languages_step ev (view w) Hne) as [-> ->].
    split; assumption.
Qed.

(** X1: in every run, the loading flag of a button's operation is up
    exactly while a call of that operation is in flight, and there is never
    more than one; the languages fetch has at most one call in flight, and
    until it settles the languages loading flag is up, the language list is
    empty, no language error is shown, the select is disabled and the editor
    is given ["python"]. *)
Theorem loading_flag_tracks_call_in_flight (w : World) :
  reachable w ->
  (forall b,
     in_flight (OnClick b) w <= 1
     /\ (loading_prop b (view w) = true <-> in_flight (OnClick b) w = 1))
  /\ in_flight FetchLanguages w <= 1
  /\ (in_flight FetchLanguages w = 1 ->
      languagesLoading (view w) = true
      /\ languages (view w) = []
      /\ languageError (view w) = JNull
      /\ select_disabled (view w) = true
      /\ editorLanguage (view w) = js "python").
Proof.
  intros Hr. destruct (reachable_consistent w Hr) as (Hb & Hle & Hfl).
  split; [| split; [exact Hle |]].
  - intros b. rewrite (Hb b).
    destruct (loading_prop b (view w)); split; try lia;
      split; congruence.
  - intros H1. destruct (Hfl H1) as [Hload Hsel].
    destruct (fetch_pending_view w Hr H1) as [Hl He].
    repeat split; try assumption.
    + unfold select_disabled. rewrite Hload. reflexivity.
    + unfold editorLanguage, activeLanguage. rewrite Hl, Hsel. reflexivity.
Qed.

Lemma loading_flag_tracks_call_in_flight_witness :
  let w := {| view := step (put_code (js "1") (view mount)) (Click RunJudge0);
              awaiting := [OnClick RunJudge0; FetchLanguages] |} in
  wsteps mount [EditorChange (Some (js "1")); Click RunJudge0] = Some w
  /\ executionLoading (view w) = true
  /\ in_flight (OnClick RunJudge0) w = 1
  /\ editorLanguage (view w) = js "python".
Proof.
  intros w.
  assert (Hr : reachable w).
  { apply (reach_step
             {| view := put_code (js "1") (view mount);
                awaiting := [FetchLanguages] |}
             (Click RunJudge0)); [| reflexivity].
    apply (reach_step mount (EditorChange (Some (js "1"))));
      [exact reach_mount | reflexivity]. }
  pose proof (loading_flag_tracks_call_in_flight w Hr) as (Hb & _ & Hf).
  split; [reflexivity |]. split; [reflexivity |]. split.
  - apply (proj2 (Hb RunJudge0)). reflexivity.
  - apply (Hf eq_refl).
Defined.

(** ** Requests *)

(** X2: an event makes the component send a request exactly when it is a
    click on a button whose input holds a code unit that is not white space
    and whose loading flag is down.  It then sends one request, a POST to the
    configured base address, whose body carries the input as it was typed,
    not trimmed. *)
Theorem request_iff_enabled_click (ev : Event) (s : AppState) :
  (calls (trace_of (dispatch ev s)) <> [] <->
   exists b, ev = Click b
             /\ forallb is_whitespace (input b s) = false
             /\ loading_prop b s = false)
  /\ length (calls (trace_of (dispatch ev s))) <= 1
  /\ (forall r, In r (calls (trace_of (dispatch ev s))) ->
      exists b,
        ev = Click b
        /\ method r = POST
        /\ base r = js "http://127.0.0.1:8000/api/"
        /\ url r = snd (endpoint (OnClick b))
        /\ body r =
             Some match b with
                  | Generate => JObj [("topic", JStr (topic s))]
                  | Explain => JObj [("concept", JStr (concept s))]
                  | GetFeedback => JObj [("code", JStr (code s))]
                  | RunJudge0 =>
                      JObj [("language", JStr (selectedLanguage s));
                            ("source_code", JStr (code s));
                            ("stdin", JStr (stdin s))]
                  end).
Proof.
  rewrite dispatch_calls.
  destruct ev as [v | v | v | v | v | b | p | b p |];
    try (split; [split; [intros H; contradiction
                        | intros (b' & H & _); discriminate H]
                | split; [cbn; lia | intros r []]]).
  destruct (blank (input b s)) eqn:Hb; cbn [orb].
  - apply blank_spec in Hb.
    split; [split; [intros H; contradiction |] | split; [cbn; lia |]].
    + intros (b' & H & Hw & _). injection H as <-. congruence.
    + intros r [].
  - apply blank_false in Hb. destruct (loading_prop b s) eqn:Hl.
    + split; [split; [intros H; contradiction |] | split; [cbn; lia |]].
      * intros (b' & H & _ & Hl'). injection H as <-. congruence.
      * intros r [].
    + split; [split |].
      * intros _. exists b. auto.
      * intros _. discriminate.
      * split; [cbn; lia |].
        intros r [<- | []]. exists b. destruct b; repeat split.
Qed.

(** ** Settlements *)

(** What a settled call leaves: the operation's result cell rewritten with a
    value fixed by the settlement, and its loading flag down. *)
Lemma settled_state (b : Button) (p : Settlement JsVal) :
  exists v, forall s,
    step s (Settled b p) = put_loading b false (put_result b v s).
Proof.
  destruct p as [[d] | err].
  - destruct b.
    + destruct (nullish d) eqn:N; eexists; intros s; unfold step;
        rewrite (resume_resolved_field Generate) by (left; reflexivity);
        cbn zeta; cbn [data]; rewrite N; reflexivity.
    + eexists. intros s. reflexivity.
    + eexists. intros s. reflexivity.
    + destruct (nullish d) eqn:N; eexists; intros s; unfold step;
        rewrite (resume_resolved_field GetFeedback) by (right; reflexivity);
        cbn zeta; cbn [data]; rewrite N; reflexivity.
  - eexists. intros s. unfold step. rewrite resume_rejected. reflexivity.
Qed.

(** X3: what a settlement stores does not depend on the state it arrives
    in: the result cell of the operation is a function of the settlement
    alone, and the loading flag is down afterwards.  So asking twice and
    getting the same response twice leaves the same result both times, and
    the last settlement wins. *)
Theorem settlement_overwrites_result (b : Button) (p q : Settlement JsVal)
    (s s' : AppState) :
  result b (step s (Settled b p)) = result b (step s' (Settled b p))
  /\ loading_prop b (step s (Settled b p)) = false
  /\ result b
       (step (step (step (step s (Click b)) (Settled b p)) (Click b))
          (Settled b p))
     = result b (step (step s (Click b)) (Settled b p))
  /\ result b (step (step s (Settled b q)) (Settled b p))
     = result b (step s (Settled b p)).
Proof.
  destruct (settled_state b p) as [v Hv].
  rewrite !Hv. destruct b; repeat split; reflexivity.
Qed.

(** ** Independent operations *)

(** The state a click leaves. *)
Lemma click_state (b : Button) (s : AppState) :
  step s (Click b) =
    if blank (input b s) || loading_prop b s then s
    else match b with
         | RunJudge0 =>
             put_executionResult JNull (put_executionLoading true s)
         | _ => put_loading b true s
         end.
Proof.
  unfold step.
  destruct (blank (input b s) || loading_prop b s) eqn:E.
  - rewrite (click_disabled b s E). reflexivity.
  - apply orb_false_elim in E. destruct E as [Hb Hl].
    rewrite (click_enabled b s Hb Hl). reflexivity.
Qed.

Lemma click_trace (b : Button) (s : AppState) :
  trace_of (dispatch (Click b) s) =
    if blank (input b s) || loading_prop b s then []
    else Write (loading_cell b)
           :: match b with
              | RunJudge0 => [Write CExecutionResult]
              | _ => []
              end ++ [Call (request b s)].
Proof.
  destruct (blank (input b s) || loading_prop b s) eqn:E.
  - rewrite (click_disabled b s E). reflexivity.
  - apply orb_false_elim in E. destruct E as [Hb Hl].
    rewrite (click_enabled b s Hb Hl). reflexivity.
Qed.

Lemma settled_trace (b : Button) (p : Settlement JsVal) (s s' : AppState) :
  trace_of (dispatch (Settled b p) s) = trace_of (dispatch (Settled b p) s').
Proof.
  destruct p as [[d] | err].
  - destruct b; try reflexivity.
    + rewrite !(resume_resolved_field Generate) by (left; reflexivity).
      cbn zeta. cbn [data]. destruct (nullish d); reflexivity.
    + rewrite !(resume_resolved_field GetFeedback) by (right; reflexivity).
      cbn zeta. cbn [data]. destruct (nullish d); reflexivity.
  - rewrite !resume_rejected. reflexivity.
Qed.

(** Splits on the guards of the clicks in the goal. *)
Ltac use_conditions :=
  cbn -[blank];
  repeat match goal with
         | H : _ = true |- _ => rewrite H
         | H : _ = false |- _ => rewrite H
         end;
  cbn -[blank].

Ltac split_conditions s :=
  repeat (use_conditions;
          match goal with
          | |- context [blank (?f s)] => destruct (blank (f s)) eqn:?
          | |- context [if ?g s then _ else _] => destruct (g s) eqn:?
          end);
  use_conditions.

(** X4: the operations of two different buttons do not interfere.  For a
    click or a settlement of one and a click or a settlement of the other,
    the state reached is the same in either order, and what each does
    (setter calls, request sent) is what it would have done without the
    other. *)
Theorem operations_of_different_buttons_commute (a b : Button)
    (ea eb : Event) (s : AppState) :
  button_of ea = Some a ->
  button_of eb = Some b ->
  a <> b ->
  step (step s ea) eb = step (step s eb) ea
  /\ trace_of (dispatch eb (step s ea)) = trace_of (dispatch eb s)
  /\ trace_of (dispatch ea (step s eb)) = trace_of (dispatch ea s).
Proof.
  intros Ha Hb Hne.
  destruct ea as [| | | | | a' | | a' p |]; try discriminate Ha;
    injection Ha as ->;
    destruct eb as [| | | | | b' | | b' q |]; try discriminate Hb;
    injection Hb as ->.
  - (* click, click *)
    rewrite !click_trace, !click_state.
    destruct a, b; try contradiction; cbn [input loading_prop];
      split_conditions s; repeat split; reflexivity.
  - (* click, settlement *)
    destruct (settled_state b q) as [v Hv].
    rewrite (settled_trace b q (step s (Click a)) s).
    rewrite !click_trace, !Hv, !click_state.
    destruct a, b; try contradiction; cbn [input loading_prop];
      split_conditions s; repeat split; reflexivity.
  - (* settlement, click *)
    destruct (settled_state a p) as [v Hv].
    rewrite (settled_trace a p (step s (Click b)) s).
    rewrite !click_trace, !Hv, !click_state.
    destruct a, b; try contradiction; cbn [input loading_prop];
      split_conditions s; repeat split; reflexivity.
  - (* settlement, settlement *)
    destruct (settled_state a p) as [v Hv].
    destruct (settled_state b q) as [u Hu].
    rewrite (settled_trace b q (step s (Settled a p)) s).
    rewrite (settled_trace a p (step s (Settled b q)) s).
    rewrite !Hv, !Hu.
    destruct a, b; try contradiction; repeat split; reflexivity.
Qed.

Lemma operations_of_different_buttons_commute_witness :
  let s := put_code (js "print(1)") (put_topic (js "python") (view mount)) in
  step (step s (Click Generate)) (Click RunJudge0)
  = step (step s (Click RunJudge0)) (Click Generate)
  /\ topicLoading (step (step s (Click Generate)) (Click RunJudge0)) = true
  /\ executionLoading (step (step s (Click Generate)) (Click RunJudge0))
     = true.
Proof.
  intros s.
  assert (Hne : Generate <> RunJudge0) by discriminate.
  pose proof (operations_of_different_buttons_commute Generate RunJudge0
                (Click Generate) (Click RunJudge0) s eq_refl eq_refl Hne)
    as (H & _).
  split; [exact H |]. split; reflexivity.
Defined.

(** ** The selection after the fetch *)

(** Only the select and a settlement of the languages fetch write the
    selection. *)
Lemma selection_written (ev : Event) (s : AppState) :
  In CSelectedLanguage (writes (trace_of (dispatch ev s))) ->
  (exists v, ev = SelectLanguage v) \/ (exists p, ev = LanguagesSettled p).
Proof.
  destruct ev as [v | v | v | v | v | b | p | b p |];
    try (cbn; solve [intuition discriminate]).
  - intros _. left. exists v. reflexivity.
  - rewrite click_trace.
    destruct (blank (input b s) || loading_prop b s); [intros [] |].
    destruct b; cbn; intuition discriminate.
  - intros _. right. exists p. reflexivity.
  - destruct p as [[d] | err].
    + destruct b; try (cbn; solve [intuition discriminate]).
      * rewrite (resume_resolved_field Generate) by (left; reflexivity).
        cbn zeta. cbn [data]. destruct (nullish d); cbn;
          intuition discriminate.
      * rewrite (resume_resolved_field GetFeedback) by (right; reflexivity).
        cbn zeta. cbn [data]. destruct (nullish d); cbn;
          intuition discriminate.
    + rewrite resume_rejected. destruct b; cbn; intuition discriminate.
Qed.

Lemma listed_step (ev : Event) (s : AppState) :
  (forall p, ev <> LanguagesSettled p) ->
  In (selectedLanguage s) (map key (languages s)) ->
  In (selectedLanguage (step s ev)) (map key (languages (step s ev))).
Proof.
  intros Hne Hin.
  destruct (languages_step ev s Hne) as [-> _].
  destruct (in_dec Cell_eq_dec CSelectedLanguage
              (writes (trace_of (dispatch ev s)))) as [Hw | Hw].
  - apply selection_written in Hw. destruct Hw as [[v ->] | [p ->]].
    + unfold step. rewrite select_spec.
      destruct (select_disabled s); [exact Hin |].
      destruct (has_key (languages s) v) eqn:Hk; [| exact Hin].
      apply has_key_In. exact Hk.
    + exfalso. eapply Hne. reflexivity.
  - rewrite (dispatch_frame ev s CSelectedLanguage Hw : selectedLanguage _ = _).
    exact Hin.
Qed.

(** X5: once the languages fetch has settled, a selection that is the key
    of a listed language stays one for the rest of the run, whatever the user
    does: the list is not written again and the select stores only keys of
    the list.  A language is then always active. *)
Theorem selection_stays_listed (evs : list Event) (w w' : World) :
  in_flight FetchLanguages w = 0 ->
  In (selectedLanguage (view w)) (map key (languages (view w))) ->
  wsteps w evs = Some w' ->
  languages (view w') = languages (view w)
  /\ In (selectedLanguage (view w')) (map key (languages (view w')))
  /\ exists lang, activeLanguage (view w') = Some lang
                  /\ key lang = selectedLanguage (view w').
Proof.
  revert w. induction evs as [| ev evs IH]; intros w H0 Hin Hrun;
    simpl in Hrun.
  - injection Hrun as <-. split; [reflexivity |]. split; [exact Hin |].
    apply activeLanguage_In, Hin.
  - destruct (wstep w ev) as [w1 |] eqn:Hstep; [| discriminate].
    assert (Hne : forall p, ev <> LanguagesSettled p).
    { intros p ->. unfold wstep in Hstep.
      destruct (is_awaiting FetchLanguages w) eqn:Ha; [| discriminate].
      apply is_awaiting_in_flight in Ha. lia. }
    pose proof (fetch_not_restarted w w1 ev Hstep) as Hle.
    pose proof (wstep_view w w1 ev Hstep) as Hv.
    assert (H1 : in_flight FetchLanguages w1 = 0) by lia.
    assert (Hin1 : In (selectedLanguage (view w1))
                      (map key (languages (view w1)))).
    { rewrite Hv. apply listed_step; assumption. }
    destruct (IH w1 H1 Hin1 Hrun) as (Hl & Hm & Ha).
    split; [| split; assumption].
    rewrite Hl, Hv. apply (languages_step ev (view w) Hne).
Qed.

Lemma selection_stays_listed_witness :
  let python := {| key := js "python"; name := js "Python";
                   editor := js "python" |} in
  let c := {| key := js "c"; name := js "C"; editor := js "cpp" |} in
  let res := {| data := Some {| body_languages := Some [c; python] |} |} in
  let w := {| view := step (view mount) (LanguagesSettled (Resolved res));
              awaiting := [] |} in
  let evs := [SelectLanguage (js "c"); SelectLanguage (js "ruby");
              InputStdin (js "42")] in
  let w' := {| view := steps (view w) evs; awaiting := [] |} in
  wsteps w evs = Some w'
  /\ selectedLanguage (view w') = js "c"
  /\ In (selectedLanguage (view w')) (map key (languages (view w'))).
Proof.
  intros python c res w evs w'.
  assert (Hrun : wsteps w evs = Some w') by reflexivity.
  pose proof (selection_stays_listed evs w w' eq_refl
                (or_intror (or_introl eq_refl)) Hrun) as (_ & Hin & _).
  split; [exact Hrun |]. split; [reflexivity | exact Hin].
Defined.

(** ** The editor's language *)

Lemma or_str_nonempty (a : option jsstring) (b : jsstring) :
  b <> [] -> or_str a b <> [].
Proof.
  intros Hb. destruct a as [[| c k] |]; cbn; try exact Hb. discriminate.
Qed.

(** X6: the language given to the editor is never the empty string.  It is
    the editor hint of the active language (the first listed language whose
    key is the selection) when that hint is not empty; otherwise the selected
    key itself when it is not empty; otherwise ["plaintext"]. *)
Theorem editorLanguage_cases (s : AppState) :
  editorLanguage s <> []
  /\ (forall lang,
        activeLanguage s = Some lang -> editor lang <> [] ->
        editorLanguage s = editor lang)
  /\ (activeLanguage s = None
      \/ (exists lang, activeLanguage s = Some lang /\ editor lang = []) ->
      editorLanguage s
      = if jsstring_eqb (selectedLanguage s) [] then js "plaintext"
        else selectedLanguage s).
Proof.
  unfold editorLanguage. split; [| split].
  - apply or_str_nonempty. discriminate.
  - intros lang -> Hne. cbn. destruct (editor lang) as [| c k];
      [contradiction | reflexivity].
  - intros [-> | (lang & -> & He)]; cbn; rewrite ?He; cbn;
      destruct (selectedLanguage s); reflexivity.
Qed.

(** ** The status of a run *)

(** X7: the status tone is emerald exactly when the status id is the number
    3.  A status given as a string is its own label and is always shown in
    red, whatever it says.  For a numeric id the tone is amber when the id is
    below 3 and not 0, and red otherwise, the id 0 included. *)
Theorem statusTone_cases (coerced_lt : JsVal -> Z -> bool) (s : AppState) :
  (statusTone coerced_lt s = js "text-emerald-600" <->
   optprop (statusInfo s) "id" = JNum 3)
  /\ (forall label,
        statusInfo s = JStr label ->
        statusLabel s = JStr label
        /\ statusTone coerced_lt s = js "text-red-600")
  /\ (forall n,
        optprop (statusInfo s) "id" = JNum n ->
        statusTone coerced_lt s
        = if (n =? 3)%Z then js "text-emerald-600"
          else if (n <? 3)%Z && negb (n =? 0)%Z then js "text-amber-600"
          else js "text-red-600").
Proof.
  unfold statusTone, statusLabel. cbv zeta. split; [| split].
  - destruct (optprop (statusInfo s) "id") as [| | b | n | str | l | o];
      cbn [strict_eq_number];
      try (split; [| discriminate];
           destruct (truthy _ && less_than coerced_lt _ 3); discriminate).
    destruct (Z.eqb_spec n 3) as [-> | Hn].
    + split; reflexivity.
    + split; [| congruence].
      destruct (truthy (JNum n) && less_than coerced_lt (JNum n) 3);
        discriminate.
  - intros label ->. split; reflexivity.
  - intros n ->. cbn [strict_eq_number truthy less_than].
    destruct (n =? 3)%Z; [reflexivity |].
    rewrite andb_comm. reflexivity.
Qed.

(** ** The message of a rejected run *)

(** The value [handleRun] picks for its message is never falsy. *)
Lemma fallback_truthy (err : JsVal) : truthy (fallback err) = true.
Proof.
  unfold fallback, jor, execution_failed.
  destruct (truthy (optprop (optprop (optprop err "response") "data") "error"))
    eqn:E1; rewrite ?E1; [assumption || reflexivity |].
  destruct (truthy (optprop err "message")) eqn:E2; rewrite ?E2;
    [assumption || reflexivity | reflexivity].
Qed.

(** ** [CurriculumCard] *)






(** X10: the two shapes of a curriculum response show the same levels.  When
    the body has a [curriculum] object with truthy [levels], and when the body
    has no truthy [curriculum] but truthy [levels] of its own, the levels the
    card maps over after the call resolves are those [levels]. *)
Theorem curriculum_shapes_show_levels (s : AppState) (d : JsVal) :
  (truthy (optprop (optprop d "curriculum") "levels") = true ->
   levels_of (curriculum (step s (Settled Generate (Resolved {| data := d |}))))
   = Normal (optprop (optprop d "curriculum") "levels"))
  /\ (truthy (optprop d "curriculum") = false ->
      truthy (optprop d "levels") = true ->
      levels_of
        (curriculum (step s (Settled Generate (Resolved {| data := d |}))))
      = Normal (optprop d "levels")).
Proof.
  split.
  - intros Hl.
    destruct d as [| | b | n | str | l | props]; try discriminate Hl.
    cbn in *. unfold jor.
    destruct (own props "curriculum") as [| | b | n | str | l | cprops];
      try discriminate Hl.
    cbn in *. unfold jor. rewrite Hl. cbn. rewrite Hl. reflexivity.
  - intros Hc Hl.
    destruct d as [| | b | n | str | l | props]; try discriminate Hl.
    cbn in *. unfold jor. rewrite Hc. cbn. unfold jor. rewrite Hl. cbn.
    rewrite Hl. reflexivity.
Qed.

(** X11: what the page shows after a call of one of the other three
    operations is rejected.  The curriculum card is rendered with no level and
    no message; the lesson panel has the heading ["Lesson"], the serialized
    error object as its text and no exercise; the feedback panel shows the
    serialized error object. *)
Theorem failure_display (stringify stringify_indented : JsVal -> JsVal)
    (s : AppState) (err : JsVal) :
  CurriculumCard (curriculum (step s (Settled Generate (Rejected err))))
  = Normal (Some [])
  /\ lessonPanel stringify (step s (Settled Explain (Rejected err)))
     = Shown {| lesson_heading := JStr (js "Lesson");
                lesson_text :=
                  stringify (JObj [("error", JStr (js "failed to fetch"))]);
                lesson_exercise := Skipped JUndefined |}
  /\ feedbackPanel stringify_indented
       (step s (Settled GetFeedback (Rejected err)))
     = Shown (stringify_indented
                (JObj [("error", JStr (js "failed to fetch"))])).
Proof. repeat split. Qed.

(** ** The earlier revision *)

Ltac run_earlier :=
  unfold Earlier.click, Earlier.resume, Earlier.PrimaryButton,
    Earlier.handleGenerate_begin, Earlier.handleGenerate_resume,
    Earlier.handleExplain_begin, Earlier.handleExplain_resume,
    Earlier.handleFeedback_begin, Earlier.handleFeedback_resume,
    Earlier.successor.

Lemma dispatch_triple (ev : Event) (s : AppState) :
  dispatch ev s
  = (completion_of (dispatch ev s), step s ev, trace_of (dispatch ev s)).
Proof.
  unfold completion_of, step, state_of, trace_of.
  destruct (dispatch ev s) as [[c st] t]. reflexivity.
Qed.

(** X12: moving the requests into [api.js] and disabling the buttons on a
    blank input changed nothing a click does: for each of the three buttons
    of the earlier revision, a click has the same outcome (state, setter
    calls, request) there as on its successor in the current component; and
    the curriculum and lesson handlers treat a settlement alike in both. *)
Theorem earlier_clicks_agree (b : Earlier.Button) (p : Settlement JsVal)
    (s : AppState) :
  Earlier.click b s = dispatch (Click (Earlier.successor b)) s
  /\ (b <> Earlier.Submit ->
      Earlier.resume b p s = dispatch (Settled (Earlier.successor b) p) s).
Proof.
  split.
  - rewrite (dispatch_triple (Click (Earlier.successor b)) s).
    rewrite dispatch_normal, click_trace, click_state.
    destruct b; run_earlier; unfold bind, read, ret, call, emit,
      setTopicLoading, setLessonLoading, setFeedbackLoading, setter;
      cbn [input loading_prop].
    + destruct (blank (topic s)) eqn:Hb, (topicLoading s) eqn:Hl;
        cbn -[blank]; rewrite ?Hb; reflexivity.
    + destruct (blank (concept s)) eqn:Hb, (lessonLoading s) eqn:Hl;
        cbn -[blank]; rewrite ?Hb; reflexivity.
    + destruct (blank (code s)) eqn:Hb, (feedbackLoading s) eqn:Hl;
        cbn -[blank]; rewrite ?Hb; reflexivity.
  - intros Hne. destruct b; try contradiction; reflexivity.
Qed.

(** X13: the feedback handler is where the revisions differ.  On rejection
    they agree.  On resolution the earlier one stores the body as it came;
    the current one stores the body's [feedback] field when it is truthy, and
    stores the error value (logging a [TypeError]) when the body is [null] or
    [undefined]; they agree when the body is neither and has no truthy
    [feedback] field. *)
Theorem feedback_handlers_differ (s : AppState) (err : JsVal)
    (res : Response JsVal) :
  Earlier.resume Earlier.Submit (Rejected err) s
  = dispatch (Settled GetFeedback (Rejected err)) s
  /\ feedback (state_of (Earlier.resume Earlier.Submit (Resolved res) s))
     = data res
  /\ (nullish (data res) = true ->
      feedback (step s (Settled GetFeedback (Resolved res)))
      = JObj [("error", JStr (js "failed to fetch"))]
      /\ trace_of (Earlier.resume Earlier.Submit (Resolved res) s)
         = [Write CFeedback; Write CFeedbackLoading])
  /\ (truthy (optprop (data res) "feedback") = true ->
      feedback (step s (Settled GetFeedback (Resolved res)))
      = optprop (data res) "feedback")
  /\ (nullish (data res) = false ->
      truthy (optprop (data res) "feedback") = false ->
      Earlier.resume Earlier.Submit (Resolved res) s
      = dispatch (Settled GetFeedback (Resolved res)) s).
Proof.
  split; [reflexivity |]. split; [reflexivity |].
  unfold step.
  rewrite (resume_resolved_field GetFeedback res s) by (right; reflexivity).
  cbn zeta. destruct res as [d]. cbn [data].
  split; [| split].
  - intros ->. split; reflexivity.
  - intros Ht. destruct d; try discriminate Ht. cbn in *. unfold jor.
    rewrite Ht. reflexivity.
  - intros Hn Hf. rewrite Hn. unfold jor. rewrite Hf. reflexivity.
Qed.

(* ===================================================================== *)
(** * The page after a failure *)
(* ===================================================================== *)

Import Page.

(** React renders a value exactly when no plain object occurs in it, outside
    or inside arrays; otherwise it throws its invalid-child error. *)
Lemma render_child_spec :
  forall v,
    if valid_child v then exists nodes, render_child v = Normal nodes
    else render_child v = Throw InvalidChild.
Proof.
  fix IH 1. intros [| | b | n | str | items | props]; cbn;
    try (eexists; reflexivity); try reflexivity.
  - destruct str; eexists; reflexivity.
  - induction items as [| x rest IHrest].
    + eexists. reflexivity.
    + pose proof (IH x) as Hx. destruct (valid_child x); cbn.
      * destruct Hx as [a ->]. cbn.
        match goal with
        | |- context [if ?c then _ else _] => destruct c
        end.
        -- destruct IHrest as [bs ->]. cbn. eexists. reflexivity.
        -- rewrite IHrest. reflexivity.
      * rewrite Hx. reflexivity.
Qed.

Lemma render_child_string (str : jsstring) :
  str <> [] -> render_child (JStr str) = Normal [Text str].
Proof. destruct str; [contradiction | reflexivity]. Qed.

(** ** A rejected run with an object for a message *)

(** C8 fails on the code.  When a run is rejected and the [error] field of
    the response body is a plain object, [handleRun] catches the rejection
    and completes normally, but it stores that object as the message; the
    error box hands it to React as a child and rendering [App] throws, so the
    failure is not confined to the run's region.  And after a rejected
    curriculum call the card is rendered with no level and no text at all:
    no message takes the place of the result. *)
Theorem C8_object_error_breaks_render (coerced_lt : JsVal -> Z -> bool)
    (s : AppState) (err : JsVal) (props : list (string * JsVal)) :
  optprop (optprop (optprop err "response") "data") "error" = JObj props ->
  dispatch (Settled RunJudge0 (Rejected err)) s
  = (Normal tt,
     put_executionLoading false
       (put_executionResult (JObj [("error", JObj props)]) s),
     [ConsoleError err; Write CExecutionResult; Write CExecutionLoading])
  /\ executionPanel coerced_lt (step s (Settled RunJudge0 (Rejected err)))
     = Shown (ErrorPanel (JObj props))
  /\ render_executionPanel coerced_lt
       (step s (Settled RunJudge0 (Rejected err)))
     = Throw InvalidChild
  /\ render_CurriculumCard
       (curriculum (step s (Settled Generate (Rejected err))))
     = Normal (Some []).
Proof.
  intros He.
  assert (Hf : fallback err = JObj props).
  { unfold fallback, jor. rewrite He. reflexivity. }
  assert (Hd : dispatch (Settled RunJudge0 (Rejected err)) s
               = (Normal tt,
                  put_executionLoading false
                    (put_executionResult (JObj [("error", JObj props)]) s),
                  [ConsoleError err; Write CExecutionResult;
                   Write CExecutionLoading])).
  { rewrite resume_rejected. cbn [put_loading put_result result_cell
                                    loading_cell]. rewrite Hf. reflexivity. }
  split; [exact Hd |].
  unfold render_executionPanel, step. rewrite Hd.
  repeat split.
Qed.

Lemma C8_witness :
  let err :=
    JObj [("message", JStr (js "Request failed with status code 400"));
          ("response",
           JObj [("data",
                  JObj [("error",
                         JObj [("detail",
                                JStr (js "Unsupported language"))])])])] in
  let s := steps (view mount)
             [InputTopic (js "python"); Click Generate;
              Settled Generate
                (Resolved {| data := JObj [("levels", JArr [])] |});
              EditorChange (Some (js "print(1)")); Click RunJudge0] in
  executionLoading s = true
  /\ completion_of (dispatch (Settled RunJudge0 (Rejected err)) s) = Normal tt
  /\ curriculum (step s (Settled RunJudge0 (Rejected err)))
     = JObj [("levels", JArr [])]
  /\ render_executionPanel (fun _ _ => false)
       (step s (Settled RunJudge0 (Rejected err)))
     = Throw InvalidChild.
Proof.
  intros err s.
  pose proof (C8_object_error_breaks_render (fun _ _ => false) s err
                [("detail", JStr (js "Unsupported language"))] eq_refl)
    as (Hd & _ & Hr & _).
  split; [reflexivity |]. split; [| split].
  - rewrite Hd. reflexivity.
  - reflexivity.
  - exact Hr.
Defined.

(** ** The panel of a run on the page *)

Lemma render_slot_spec (v : JsVal) :
  if valid_child v then exists sec, render_slot (slot v) = Normal sec
  else render_slot (slot v) = Throw InvalidChild.
Proof.
  pose proof (render_child_spec v) as H. unfold slot, render_slot.
  destruct (valid_child v).
  - destruct H as [n H]. destruct (truthy v); cbn; rewrite H; cbn;
      eexists; reflexivity.
  - destruct (truthy v); cbn; rewrite H; reflexivity.
Qed.

Lemma render_measure_spec (v : JsVal) :
  if valid_child v then exists sec, render_measure (measure v) = Normal sec
  else render_measure (measure v) = Throw InvalidChild.
Proof.
  pose proof (render_child_spec v) as H.
  destruct v as [| | b | n | str | items | props].
  - eexists. reflexivity.
  - eexists. reflexivity.
  - eexists. reflexivity.
  - eexists. reflexivity.
  - destruct str; eexists; reflexivity.
  - unfold measure, render_measure.
    destruct (valid_child (JArr items)).
    + destruct H as [nodes ->]. eexists. reflexivity.
    + rewrite H. reflexivity.
  - reflexivity.
Qed.

(** X8: what the page shows for a run.  A click that starts a run removes
    the panel.  After a rejected call, a message that is a string is shown in
    the error box and is not empty (it is the fixed text when the error has
    neither a truthy backend [error] field nor a truthy [message]), and a
    message that is a plain object makes the rendering of [App] throw.  After
    a resolved call, a falsy body gives no panel (the number 0 is printed as
    text); a body with a non-empty string [error] field gives the error box
    with it; a truthy body without a truthy [error] field gives the result
    box exactly when none of the values it displays (label, stdout, stderr,
    compiler output, time, memory, token) holds a plain object, and rendering
    throws otherwise; the label is the status when the status is a non-empty
    string, and ["Completed"] when the status has no truthy label. *)
Theorem run_panel_on_page (coerced_lt : JsVal -> Z -> bool)
    (s : AppState) (err : JsVal) (res : Response JsVal) :
  (blank (code s) = false -> executionLoading s = false ->
   render_executionPanel coerced_lt (step s (Click RunJudge0))
   = Normal (NoRunPanel []))
  /\ (forall str,
        fallback err = JStr str ->
        str <> []
        /\ render_executionPanel coerced_lt
             (step s (Settled RunJudge0 (Rejected err)))
           = Normal (ErrorBox [Text str]))
  /\ (truthy (optprop (optprop (optprop err "response") "data") "error")
      = false ->
      truthy (optprop err "message") = false ->
      render_executionPanel coerced_lt
        (step s (Settled RunJudge0 (Rejected err)))
      = Normal (ErrorBox [Text (js "Execution failed. Please try again.")]))
  /\ (forall props,
        fallback err = JObj props ->
        render_executionPanel coerced_lt
          (step s (Settled RunJudge0 (Rejected err)))
        = Throw InvalidChild)
  /\ (truthy (data res) = false ->
      render_executionPanel coerced_lt
        (step s (Settled RunJudge0 (Resolved res)))
      = Normal (NoRunPanel match data res with
                           | JNum n => [Digits n]
                           | _ => []
                           end))
  /\ (forall str,
        optprop (data res) "error" = JStr str -> str <> [] ->
        render_executionPanel coerced_lt
          (step s (Settled RunJudge0 (Resolved res)))
        = Normal (ErrorBox [Text str]))
  /\ (truthy (data res) = true ->
      truthy (optprop (data res) "error") = false ->
      let s' := step s (Settled RunJudge0 (Resolved res)) in
      if forallb valid_child
           [jor (statusLabel s') (JStr (js "Completed"));
            optprop (data res) "stdout"; optprop (data res) "stderr";
            optprop (data res) "compile_output"; optprop (data res) "time";
            optprop (data res) "memory"; optprop (data res) "token"]
      then exists r,
          render_executionPanel coerced_lt s' = Normal (ResultView r)
          /\ box_tone r = statusTone coerced_lt s'
          /\ (forall label,
                optprop (data res) "status" = JStr label -> label <> [] ->
                box_label r = [Text label])
          /\ (truthy (statusLabel s') = false ->
              box_label r = [Text (js "Completed")])
      else render_executionPanel coerced_lt s' = Throw InvalidChild).
Proof.
  split; [| split; [| split; [| split; [| split; [| split]]]]].
  - intros Hb Hl. rewrite click_state. cbn [input loading_prop].
    rewrite Hb, Hl. reflexivity.
  - intros str Hf.
    assert (Hne : str <> []).
    { intros ->. pose proof (fallback_truthy err) as Ht. rewrite Hf in Ht.
      discriminate Ht. }
    split; [exact Hne |].
    unfold render_executionPanel, executionPanel, step.
    rewrite resume_rejected. cbn. rewrite Hf.
    destruct str; [contradiction | reflexivity].
  - intros H1 H2.
    unfold render_executionPanel, executionPanel, step.
    rewrite resume_rejected. cbn. unfold fallback, jor.
    rewrite H1, H2. reflexivity.
  - intros props Hf.
    unfold render_executionPanel, executionPanel, step.
    rewrite resume_rejected. cbn. rewrite Hf. reflexivity.
  - intros Hf. unfold render_executionPanel, executionPanel. cbn.
    rewrite Hf. destruct (data res) as [| | b | n | str | l | o];
      try discriminate Hf; try reflexivity.
    destruct str; [reflexivity | discriminate Hf].
  - intros str He Hne.
    assert (Ht : truthy (data res) = true).
    { destruct (data res); try discriminate He. reflexivity. }
    unfold render_executionPanel, executionPanel. cbn.
    rewrite Ht, He. destruct str; [contradiction | reflexivity].
  - intros Ht He. cbv zeta.
    unfold render_executionPanel, executionPanel.
    cbn [step state_of dispatch resume]. cbn [forallb].
    change (executionResult (step s (Settled RunJudge0 (Resolved res))))
      with (data res).
    rewrite Ht, He.
    set (s' := step s (Settled RunJudge0 (Resolved res))).
    cbn [shown_label shown_tone shown_stdout shown_stderr
         shown_compile_output shown_time shown_memory shown_token].
    pose proof (render_child_spec
                  (jor (statusLabel s') (JStr (js "Completed")))) as Hl.
    destruct (valid_child (jor (statusLabel s') (JStr (js "Completed"))));
      [| rewrite Hl; reflexivity].
    destruct Hl as [label Hl]. rewrite Hl. cbn [cbind andb].
    pose proof (render_slot_spec (optprop (data res) "stdout")) as H1.
    destruct (valid_child (optprop (data res) "stdout"));
      [| rewrite H1; reflexivity].
    destruct H1 as [out ->]. cbn [cbind andb].
    pose proof (render_slot_spec (optprop (data res) "stderr")) as H2.
    destruct (valid_child (optprop (data res) "stderr"));
      [| rewrite H2; reflexivity].
    destruct H2 as [serr ->]. cbn [cbind andb].
    pose proof (render_slot_spec (optprop (data res) "compile_output")) as H3.
    destruct (valid_child (optprop (data res) "compile_output"));
      [| rewrite H3; reflexivity].
    destruct H3 as [comp ->]. cbn [cbind andb].
    pose proof (render_measure_spec (optprop (data res) "time")) as H4.
    destruct (valid_child (optprop (data res) "time"));
      [| rewrite H4; reflexivity].
    destruct H4 as [time ->]. cbn [cbind andb].
    pose proof (render_measure_spec (optprop (data res) "memory")) as H5.
    destruct (valid_child (optprop (data res) "memory"));
      [| rewrite H5; reflexivity].
    destruct H5 as [mem ->]. cbn [cbind andb].
    pose proof (render_slot_spec (optprop (data res) "token")) as H6.
    destruct (valid_child (optprop (data res) "token"));
      [| rewrite H6; reflexivity].
    destruct H6 as [tok ->]. cbn [cbind andb].
    eexists. split; [reflexivity |]. cbn [box_tone box_label].
    split; [reflexivity |]. split.
    + intros lab Hs Hne. unfold statusLabel, statusInfo in Hl.
      change (executionResult s') with (data res) in Hl.
      rewrite Hs in Hl. unfold jor in Hl.
      destruct lab; [contradiction |]. cbn in Hl.
      injection Hl as <-. reflexivity.
    + intros Hfalse. unfold jor in Hl. rewrite Hfalse in Hl. cbn in Hl.
      injection Hl as <-. reflexivity.
Qed.

(** ** The curriculum card on the page *)




